(** * The data-product catalog service

    A shallow embedding of [app/models.py] and [app/data_product_service.py]:
    the [DataProduct] table, the creation and update request shapes, and the
    service functions that read and write the table.  The storage engine is
    an explicit state ([DB]); every service function takes the state and
    returns its result with the state it leaves behind.  [datetime.utcnow()]
    is a clock oracle: the [n]-th reading taken since the store was created
    is [utcnow n]. *)

From Stdlib Require Import ZArith List String Ascii Bool Lia.
From Stdlib Require Import Sorting.Sorted Sorting.Permutation.
Import ListNotations.

Local Open Scope Z_scope.

(** ** Data model ([app/models.py]) *)

(** A timestamp, as microseconds since the epoch. *)
Definition datetime := Z.

(** [class DataProduct(SQLModel, table=True)].  The fields are the Python
    attributes of the mapped object: [id] is [None] until the row is
    inserted, and since a table model is not validated on assignment,
    [setattr] can leave [None] in an attribute that is declared [str] or
    [datetime].  The columns derived from the declarations are what the
    storage engine enforces at commit, see [not_null]. *)
Record DataProduct := mkDataProduct {
  id : option Z;
  schema_name : option string;
  description : option string;
  owner : option string;
  creation_date : option datetime;
  created_at : datetime;
  updated_at : datetime
}.

(** [class DataProductCreate(SQLModel, table=False)]: [schema_name] and
    [owner] are required, the other two default to [None]. *)
Record DataProductCreate := mkCreate {
  c_schema_name : string;
  c_description : option string;
  c_owner : string;
  c_creation_date : option datetime
}.

(** A field of an update request remembers whether the caller set it:
    [model_dump(exclude_unset=True)] keeps a field that was set to [None]
    and drops a field that was never set. *)
Inductive field (T : Type) : Type :=
| Unset
| Provided (v : option T).
Arguments Unset {T}.
Arguments Provided {T} v.

(** Reading the attribute: an unset field reads as its default, [None]. *)
Definition attr {T} (f : field T) : option T :=
  match f with
  | Unset => None
  | Provided v => v
  end.

(** How an update request leaves an attribute: as it was when the field is
    unset, the supplied value otherwise. *)
Definition merged_field {T} (f : field T) (old : option T) : option T :=
  match f with
  | Unset => old
  | Provided v => v
  end.

(** [class DataProductUpdate(SQLModel, table=False)]. *)
Record DataProductUpdate := mkUpdate {
  u_schema_name : field string;
  u_description : field string;
  u_owner : field string;
  u_creation_date : field datetime
}.

(** One entry of the dictionary [model_dump] returns. *)
Inductive assignment :=
| Set_schema_name (v : option string)
| Set_description (v : option string)
| Set_owner (v : option string)
| Set_creation_date (v : option datetime).

Definition dump_field {T} (k : option T -> assignment) (f : field T)
  : list assignment :=
  match f with
  | Unset => []
  | Provided v => [k v]
  end.

(** [updates.model_dump(exclude_unset=True)], in declaration order. *)
Definition model_dump (u : DataProductUpdate) : list assignment :=
  dump_field Set_schema_name (u_schema_name u)
  ++ dump_field Set_description (u_description u)
  ++ dump_field Set_owner (u_owner u)
  ++ dump_field Set_creation_date (u_creation_date u).

(** [setattr(db_data_product, field, value)]. *)
Definition setattr (p : DataProduct) (a : assignment) : DataProduct :=
  match a with
  | Set_schema_name v =>
      mkDataProduct (id p) v (description p) (owner p) (creation_date p)
                    (created_at p) (updated_at p)
  | Set_description v =>
      mkDataProduct (id p) (schema_name p) v (owner p) (creation_date p)
                    (created_at p) (updated_at p)
  | Set_owner v =>
      mkDataProduct (id p) (schema_name p) (description p) v (creation_date p)
                    (created_at p) (updated_at p)
  | Set_creation_date v =>
      mkDataProduct (id p) (schema_name p) (description p) (owner p) v
                    (created_at p) (updated_at p)
  end.

Definition set_updated_at (p : DataProduct) (t : datetime) : DataProduct :=
  mkDataProduct (id p) (schema_name p) (description p) (owner p)
                (creation_date p) (created_at p) t.

Definition set_id (p : DataProduct) (i : Z) : DataProduct :=
  mkDataProduct (Some i) (schema_name p) (description p) (owner p)
                (creation_date p) (created_at p) (updated_at p).

(** ** Comparisons *)

Definition opt_string_eqb (a b : option string) : bool :=
  match a, b with
  | Some x, Some y => String.eqb x y
  | None, None => true
  | _, _ => false
  end.

Definition id_is (i : Z) (p : DataProduct) : bool :=
  match id p with
  | Some j => Z.eqb j i
  | None => false
  end.

(** SQL [schema_name = :name]: a [NULL] column equals nothing. *)
Definition name_is (n : string) (p : DataProduct) : bool :=
  match schema_name p with
  | Some m => String.eqb m n
  | None => false
  end.

(** ** The storage engine *)

(** Modelled from the spec: [app.database] ([get_session], the engine and
    the table it creates) is not among the sources.  The table is
    [data_products(id PK, schema_name UNIQUE, description NULL, owner,
    creation_date, created_at, updated_at)], which is also what the column
    declarations of [DataProduct] give; [id] is system-assigned and unique,
    here drawn from a sequence whose values are never handed out twice.  A
    write that breaks a column constraint fails at commit and leaves the
    table as it was. *)
Record DB := mkDB {
  rows : list DataProduct;   (* the table, in insertion order *)
  next_id : Z;               (* the id sequence *)
  ticks : nat                (* clock readings taken so far *)
}.

Definition empty_db : DB := mkDB [] 1 0.

(** How a call ends: a value, the [ValueError] the service raises for a
    schema name that is taken, or the engine's [IntegrityError]. *)
Inductive result (A : Type) : Type :=
| Ok (a : A)
| ValueError (name : string)
| IntegrityError.
Arguments Ok {A} a.
Arguments ValueError {A} name.
Arguments IntegrityError {A}.

(** The columns declared without [Optional] are [NOT NULL]. *)
Definition not_null (p : DataProduct) : bool :=
  match schema_name p, owner p, creation_date p with
  | Some _, Some _, Some _ => true
  | _, _, _ => false
  end.

(** The [unique=True] index on [schema_name], checked against the rows
    other than the one being written. *)
Definition name_free (others : list DataProduct) (p : DataProduct) : bool :=
  negb (existsb (fun q => opt_string_eqb (schema_name q) (schema_name p)) others).

(** [session.get(DataProduct, i)]. *)
Definition session_get (st : DB) (i : Z) : option DataProduct :=
  find (id_is i) (rows st).

(** [session.add(p); session.commit(); session.refresh(p)] for a new
    object: an [INSERT]. *)
Definition commit_insert (p : DataProduct) (st : DB) : result DataProduct * DB :=
  let i := next_id st in
  let p' := set_id p i in
  if not_null p' && name_free (rows st) p'
  then (Ok p', mkDB (rows st ++ [p']) (i + 1) (ticks st))
  else (IntegrityError, mkDB (rows st) (i + 1) (ticks st)).

(** The rows of the table after an [UPDATE] of row [i]. *)
Definition replaced (i : Z) (p : DataProduct) (l : list DataProduct)
  : list DataProduct :=
  map (fun q => if id_is i q then p else q) l.

(** The same three calls for an object loaded with id [i]: an [UPDATE] of
    that row. *)
Definition commit_update (i : Z) (p : DataProduct) (st : DB)
  : result DataProduct * DB :=
  let others := filter (fun q => negb (id_is i q)) (rows st) in
  if not_null p && name_free others p
  then (Ok p, mkDB (replaced i p (rows st)) (next_id st) (ticks st))
  else (IntegrityError, st).

(** [session.delete(p); session.commit()] for the row with id [i]. *)
Definition commit_delete (i : Z) (st : DB) : DB :=
  mkDB (filter (fun q => negb (id_is i q)) (rows st)) (next_id st) (ticks st).

(** ** Ordering by [creation_date] descending *)

(** [a] sorts no later than [b] under [ORDER BY creation_date DESC]
    ([NULL] is the smallest value, so it comes last). *)
Definition newer_or_same (a b : DataProduct) : bool :=
  match creation_date a, creation_date b with
  | Some x, Some y => Z.leb y x
  | _, None => true
  | None, Some _ => false
  end.

Fixpoint insert_desc (p : DataProduct) (l : list DataProduct)
  : list DataProduct :=
  match l with
  | [] => [p]
  | q :: l' =>
      if newer_or_same p q then p :: q :: l' else q :: insert_desc p l'
  end.

(** [order_by(desc(DataProduct.creation_date))]; rows with equal dates
    keep their table order. *)
Definition order_by_creation_date_desc (l : list DataProduct)
  : list DataProduct :=
  fold_right insert_desc [] l.

(** ** The service ([app/data_product_service.py]) *)

Section Service.

(** The clock: [utcnow n] is what call number [n] of [datetime.utcnow()]
    returns, counting from 0. *)
Variable utcnow : nat -> datetime.

Definition read_clock (st : DB) : datetime * DB :=
  (utcnow (ticks st), mkDB (rows st) (next_id st) (S (ticks st))).

Definition get_all_data_products (st : DB) : list DataProduct :=
  order_by_creation_date_desc (rows st).

Definition get_data_product_by_id (data_product_id : option Z) (st : DB)
  : option DataProduct :=
  match data_product_id with
  | None => None
  | Some i => session_get st i
  end.

Definition get_data_product_by_schema_name (name : string) (st : DB)
  : option DataProduct :=
  if String.eqb name EmptyString then None
  else find (name_is name) (rows st).

Definition create_data_product (data : DataProductCreate) (st : DB)
  : result DataProduct * DB :=
  match get_data_product_by_schema_name (c_schema_name data) st with
  | Some _ => (ValueError (c_schema_name data), st)
  | None =>
      let (cd, st1) :=
        match c_creation_date data with
        | Some d => (d, st)
        | None => read_clock st
        end in
      let (ca, st2) := read_clock st1 in
      let (ua, st3) := read_clock st2 in
      commit_insert
        (mkDataProduct None (Some (c_schema_name data)) (c_description data)
                       (Some (c_owner data)) (Some cd) ca ua)
        st3
  end.

(** The guard of the uniqueness check in [update_data_product]:
    [updates.schema_name is not None and
     updates.schema_name != db_data_product.schema_name]. *)
Definition renames (updates : DataProductUpdate) (p : DataProduct)
  : option string :=
  match attr (u_schema_name updates) with
  | Some n => if opt_string_eqb (Some n) (schema_name p) then None else Some n
  | None => None
  end.

(** The merge loop of [update_data_product] followed by the stamp. *)
Definition apply_updates (updates : DataProductUpdate) (p : DataProduct)
  : DataProduct :=
  fold_left setattr (model_dump updates) p.

Definition update_data_product (data_product_id : option Z)
  (updates : DataProductUpdate) (st : DB)
  : result (option DataProduct) * DB :=
  match data_product_id with
  | None => (Ok None, st)
  | Some i =>
      match session_get st i with
      | None => (Ok None, st)
      | Some p =>
          let taken :=
            match renames updates p with
            | Some n =>
                match get_data_product_by_schema_name n st with
                | Some _ => Some n
                | None => None
                end
            | None => None
            end in
          match taken with
          | Some n => (ValueError n, st)
          | None =>
              let merged := apply_updates updates p in
              let (t, st1) := read_clock st in
              match commit_update i (set_updated_at merged t) st1 with
              | (Ok p', st2) => (Ok (Some p'), st2)
              | (ValueError n, st2) => (ValueError n, st2)
              | (IntegrityError, st2) => (IntegrityError, st2)
              end
          end
      end
  end.

Definition delete_data_product (data_product_id : option Z) (st : DB)
  : bool * DB :=
  match data_product_id with
  | None => (false, st)
  | Some i =>
      match session_get st i with
      | None => (false, st)
      | Some _ => (true, commit_delete i st)
      end
  end.

Definition get_data_products_count (st : DB) : nat :=
  List.length (rows st).

End Service.

(** ** Search *)

(** Whitespace, as Python's [str.isspace] has it on the ASCII range. *)
Definition is_space (c : ascii) : bool :=
  let n := nat_of_ascii c in
  (Nat.leb 9 n && Nat.leb n 13) || (Nat.leb 28 n && Nat.leb n 32).

Fixpoint is_blank (s : string) : bool :=
  match s with
  | EmptyString => true
  | String c s' => is_space c && is_blank s'
  end.

(** Case folding of the letters [A] to [Z]. *)
Definition lower_ascii (c : ascii) : ascii :=
  let n := nat_of_ascii c in
  if Nat.leb 65 n && Nat.leb n 90 then ascii_of_nat (n + 32) else c.

Fixpoint lower (s : string) : string :=
  match s with
  | EmptyString => EmptyString
  | String c s' => String (lower_ascii c) (lower s')
  end.

Fixpoint starts_with (t s : string) : bool :=
  match t, s with
  | EmptyString, _ => true
  | String _ _, EmptyString => false
  | String a t', String b s' => Ascii.eqb a b && starts_with t' s'
  end.

Fixpoint contains (t s : string) : bool :=
  starts_with t s ||
  match s with
  | EmptyString => false
  | String _ s' => contains t s'
  end.

(** The case-insensitive substring match of a row against a term. *)
Definition matches (term : string) (p : DataProduct) : bool :=
  match schema_name p with
  | Some n => contains (lower term) (lower n)
  | None => false
  end.

(** Modelled from the spec: [search_data_products_by_schema_name] is
    imported by [tests/test_search_functionality.py] from
    [app.data_product_service], but the service file among the sources does
    not define it.  Section 4.2 of the specification: a case-insensitive
    substring match against [schema_name]; an empty or whitespace-only term
    matches every record (equivalent to [list_all]); results ordered by
    [creation_date] descending; no matches give an empty sequence. *)
Definition search_data_products_by_schema_name (term : string) (st : DB)
  : list DataProduct :=
  if is_blank term then get_all_data_products st
  else order_by_creation_date_desc (filter (matches term) (rows st)).

(** [t] occurs in [s]. *)
Definition substring_of (t s : string) : Prop :=
  exists pre post, s = String.append pre (String.append t post).

(** ** Orderings, as relations *)

(** [a] may precede [b] in a listing by [creation_date] descending. *)
Definition desc (a b : DataProduct) : Prop :=
  match creation_date a, creation_date b with
  | Some x, Some y => y <= x
  | _, None => True
  | None, Some _ => False
  end.

(** [a] is strictly more recent than [b]. *)
Definition strictly_desc (a b : DataProduct) : Prop :=
  match creation_date a, creation_date b with
  | Some x, Some y => y < x
  | Some _, None => True
  | None, _ => False
  end.

(** ** Well-formed stores and reachable states *)

(** What the engine guarantees of the table: the primary key, the
    [NOT NULL] columns and the unique index. *)
Record wf (st : DB) : Prop := mkWf {
  wf_ids : forall p, In p (rows st) -> exists i, id p = Some i /\ i < next_id st;
  wf_pk : NoDup (map id (rows st));
  wf_not_null : forall p, In p (rows st) -> not_null p = true;
  wf_unique : NoDup (map schema_name (rows st))
}.

(** A call of one of the three mutating service functions. *)
Inductive call :=
| Create (data : DataProductCreate)
| Update (data_product_id : option Z) (updates : DataProductUpdate)
| Delete (data_product_id : option Z).

(** The state a call leaves behind, whether it returns or raises. *)
Definition exec (utcnow : nat -> datetime) (c : call) (st : DB) : DB :=
  match c with
  | Create data => snd (create_data_product utcnow data st)
  | Update i u => snd (update_data_product utcnow i u st)
  | Delete i => snd (delete_data_product i st)
  end.

Inductive reachable (utcnow : nat -> datetime) : DB -> Prop :=
| reach_empty : reachable utcnow empty_db
| reach_step c st : reachable utcnow st -> reachable utcnow (exec utcnow c st).

(** Every stored [updated_at] is a clock reading already taken. *)
Definition stamped (utcnow : nat -> datetime) (st : DB) : Prop :=
  forall p, In p (rows st) ->
    exists k, (k < ticks st)%nat /\ updated_at p = utcnow k.


Definition is_ok {A} (r : result A) : bool :=
  match r with
  | Ok _ => true
  | _ => false
  end.

(** ** Concrete stores for the examples *)

(** A clock that advances by one microsecond per reading. *)
Definition tick_clock (n : nat) : datetime := Z.of_nat n.


(** The request of [test_full_crud_workflow]-style tests, and the store
    holding just that record. *)
Definition sales_request : DataProductCreate :=
  mkCreate "sales_analytics" (Some "Sales data analysis"%string)
           "john.doe@company.com" None.

Definition one_row_db : DB :=
  exec tick_clock (Create sales_request) empty_db.

(** The three records of [test_search_data_products_case_insensitive],
    with creation dates a day apart. *)
Definition search_db : DB :=
  exec tick_clock
    (Create (mkCreate "SALES_reports" None "charlie@company.com"
                      (Some 172800000000)))
    (exec tick_clock
       (Create (mkCreate "marketing_metrics" None "bob@company.com"
                         (Some 86400000000)))
       (exec tick_clock
          (Create (mkCreate "sales_analytics" None "alice@company.com"
                            (Some 0)))
          empty_db)).

(** A sequence of calls, run from left to right. *)
Definition run (utcnow : nat -> datetime) (cs : list call) (st : DB) : DB :=
  fold_left (fun s c => exec utcnow c s) cs st.

(** The clock never runs backwards. *)
Definition monotone (utcnow : nat -> datetime) : Prop :=
  forall a b, (a <= b)%nat -> utcnow a <= utcnow b.

(** Some stored row holds the name. *)
Definition taken (n : string) (st : DB) : Prop :=
  exists q, In q (rows st) /\ schema_name q = Some n.

(** Some stored row other than row [i] holds the name. *)
Definition taken_by_other (i : Z) (n : string) (st : DB) : Prop :=
  exists q, In q (rows st) /\ id q <> Some i /\ schema_name q = Some n.

(** ** Request construction *)

(** A [string] holds the UTF-8 encoding of a Python [str]; its characters
    are counted by the bytes that start one, that is all but the
    continuation bytes [0x80] to [0xBF]. *)
Definition is_continuation (c : ascii) : bool :=
  let n := nat_of_ascii c in
  Nat.leb 128 n && Nat.leb n 191.

(** [len(s)]. *)
Fixpoint str_len (s : string) : nat :=
  match s with
  | EmptyString => 0%nat
  | String c s' => if is_continuation c then str_len s' else S (str_len s')
  end.

(** The [max_length] of a field: the value has at most [n] characters. *)
Definition within (n : nat) (s : string) : bool :=
  Nat.leb (str_len s) n.

Definition opt_within (n : nat) (s : option string) : bool :=
  match s with
  | Some x => within n x
  | None => true
  end.

(** [DataProductCreate(schema_name=.., description=.., owner=..,
    creation_date=..)]: the constructor validates the lengths declared in
    [models.py] and raises a validation error, here [None], when one is
    exceeded. *)
Definition new_DataProductCreate (sn : string) (d : option string)
  (o : string) (cd : option datetime) : option DataProductCreate :=
  if within 255 sn && opt_within 1000 d && within 255 o
  then Some (mkCreate sn d o cd)
  else None.

(** [DataProductUpdate(schema_name=.., description=.., owner=..,
    creation_date=..)] with all four keywords given: every field is set,
    also one given as [None]. *)
Definition new_DataProductUpdate (sn d o : option string)
  (cd : option datetime) : option DataProductUpdate :=
  if opt_within 255 sn && opt_within 1000 d && opt_within 255 o
  then Some (mkUpdate (Provided sn) (Provided d) (Provided o) (Provided cd))
  else None.

(** ** Sample data ([app/seed_data.py]) *)

(** [timedelta(days=n)], in microseconds. *)
Definition days (n : Z) : Z := n * 86400000000.

(** The literals of [sample_data]: schema name, description, owner, and
    how many days before now the creation date lies. *)
Definition sample_entries : list (string * string * string * Z) :=
  [ ("customer_analytics",
     "Customer behavior and segmentation analysis data",
     "analytics-team@company.com", 30);
    ("sales_performance",
     "Sales metrics, targets, and performance tracking",
     "sales-ops@company.com", 25);
    ("marketing_campaigns",
     "Campaign performance, attribution, and ROI analysis",
     "marketing-team@company.com", 20);
    ("product_usage",
     "Product feature usage, user engagement metrics",
     "product-team@company.com", 15);
    ("financial_reporting",
     "Revenue, costs, and financial KPI tracking",
     "finance-team@company.com", 10);
    ("operational_metrics",
     "System performance, uptime, and operational data",
     "devops-team@company.com", 5) ]%string.

(** One dictionary of [sample_data], with its [creation_date] computed. *)
Record sample := mkSample {
  s_schema_name : string;
  s_description : string;
  s_owner : string;
  s_creation_date : datetime
}.

Section Seed.

Variable utcnow : nat -> datetime.

(** Evaluating the list literal [sample_data]: each entry reads the clock
    for its [creation_date], in order. *)
Fixpoint build_sample_data (entries : list (string * string * string * Z))
  (st : DB) : list sample * DB :=
  match entries with
  | [] => ([], st)
  | (n, d, o, age) :: rest =>
      let (t, st1) := read_clock utcnow st in
      let (l, st2) := build_sample_data rest st1 in
      (mkSample n d o (t - days age) :: l, st2)
  end.

(** The body of the loop over [sample_data]: construct the request and
    create it; an exception of either step is logged and the loop goes
    on. *)
Definition seed_one (st : DB) (s : sample) : DB :=
  match new_DataProductCreate (s_schema_name s) (Some (s_description s))
          (s_owner s) (Some (s_creation_date s)) with
  | Some data => snd (create_data_product utcnow data st)
  | None => st
  end.

(** [seed_sample_data()]: nothing when the table has a row, else the six
    samples.  (The log lines are not modelled.) *)
Definition seed_sample_data (st : DB) : DB :=
  if Nat.ltb 0 (get_data_products_count st) then st
  else
    let (sample_data, st1) := build_sample_data sample_entries st in
    fold_left seed_one sample_data st1.

End Seed.

(** ** The dialogs ([app/data_products.py]) *)

(** The value of a text input: [None] or a string. *)
Definition text_value := option string.

(** The value of the date input: nothing, a string, or a date object,
    given by the [datetime] of its midnight. *)
Inductive date_value :=
| No_value
| Iso (s : string)
| Date_object (midnight : datetime).

(** Why the [except ValueError] branch of a dialog is taken. *)
Inductive value_error :=
| Bad_date                    (* [datetime.fromisoformat] *)
| Invalid_fields              (* the request constructor *)
| Name_exists (n : string).   (* the service *)

(** What a dialog tells the user. *)
Inductive notice :=
| Schema_name_required
| Owner_required
| Created (name : text_value)
| Updated (name : text_value)
| Not_updated
| Deleted
| Not_deleted
| Rejected (e : value_error)
| Failed.

(** The three cards above the table. *)
Record stats := mkStats {
  total : nat;
  recent : nat;
  unique_owners : nat
}.

Definition opt_string_dec (a b : option string) : {a = b} + {a <> b}.
Proof. decide equality. apply string_dec. Defined.

Section Dialogs.

Variable utcnow : nat -> datetime.

(** [datetime.fromisoformat]; [None] stands for its [ValueError]. *)
Variable fromisoformat : string -> option datetime.

(** [str.strip()], Python's own: it removes the whitespace, Unicode
    whitespace included, at both ends.  The handlers are modelled for
    whatever function it is. *)
Variable strip : string -> string.

(** [not v or not v.strip()]: the test both dialogs apply to the schema
    name and to the owner. *)
Definition missing (v : text_value) : bool :=
  match v with
  | None => true
  | Some s => String.eqb s EmptyString || String.eqb (strip s) EmptyString
  end.

(** [v.strip() if v else None], for the description. *)
Definition stripped_or_none (v : text_value) : option string :=
  match v with
  | None => None
  | Some s => if String.eqb s EmptyString then None else Some (strip s)
  end.

(** [v.strip()] for an input that has passed [missing]. *)
Definition stripped (v : text_value) : string :=
  match v with
  | None => EmptyString
  | Some s => strip s
  end.

(** The generator of [recent_count]: the clock is read once for each
    record that has a creation date. *)
Fixpoint recent_count (l : list DataProduct) (st : DB) : nat * DB :=
  match l with
  | [] => (0%nat, st)
  | dp :: l' =>
      match creation_date dp with
      | None => recent_count l' st
      | Some d =>
          let (t, st1) := read_clock utcnow st in
          let (n, st2) := recent_count l' st1 in
          ((if Z.ltb (t - days 7) d then S n else n), st2)
      end
  end.

(** [refresh_table()], as far as the store and the three counters go;
    the widgets it fills are not modelled. *)
Definition refresh_table (st : DB) : stats * DB :=
  let data_products := get_all_data_products st in
  let (r, st1) := recent_count data_products st in
  (mkStats (List.length data_products) r
           (List.length (nodup opt_string_dec (map owner data_products))),
   st1).

(** The parsing of the date input, common to both dialogs; the outer
    [None] stands for the [ValueError] of [fromisoformat]. *)
Definition parse_creation_date (v : date_value) : option (option datetime) :=
  match v with
  | No_value => Some None
  | Iso s =>
      if String.eqb s EmptyString then Some None
      else match fromisoformat s with
           | Some d => Some (Some d)
           | None => None
           end
  | Date_object m => Some (Some m)
  end.

(** [save_new_data_product()], the handler of the Save button of the add
    dialog, on the values of its four inputs: first what follows the two
    checks of the inputs, then the handler. *)
Definition submit_new (schema_name_input description_input
  owner_input : text_value) (creation_date_input : date_value) (st : DB)
  : notice * DB :=
  match parse_creation_date creation_date_input with
  | None => (Rejected Bad_date, st)
  | Some creation_date =>
      match new_DataProductCreate (stripped schema_name_input)
              (stripped_or_none description_input)
              (stripped owner_input) creation_date with
      | None => (Rejected Invalid_fields, st)
      | Some data =>
          match create_data_product utcnow data st with
          | (Ok _, st1) =>
              (Created schema_name_input, snd (refresh_table st1))
          | (ValueError n, st1) => (Rejected (Name_exists n), st1)
          | (IntegrityError, st1) => (Failed, st1)
          end
      end
  end.

Definition save_new_data_product (schema_name_input description_input
  owner_input : text_value) (creation_date_input : date_value) (st : DB)
  : notice * DB :=
  if missing schema_name_input then (Schema_name_required, st)
  else if missing owner_input then (Owner_required, st)
  else submit_new schema_name_input description_input owner_input
         creation_date_input st.

(** [save_data_product_changes()], the handler of the Save button of the
    edit dialog opened for [data_product_id], in the same two parts. *)
Definition submit_changes (data_product_id : Z)
  (schema_name_input description_input owner_input : text_value)
  (creation_date_input : date_value) (st : DB) : notice * DB :=
  match parse_creation_date creation_date_input with
  | None => (Rejected Bad_date, st)
  | Some creation_date =>
      match new_DataProductUpdate (Some (stripped schema_name_input))
              (stripped_or_none description_input)
              (Some (stripped owner_input)) creation_date with
      | None => (Rejected Invalid_fields, st)
      | Some updates =>
          match update_data_product utcnow (Some data_product_id)
                  updates st with
          | (Ok None, st1) => (Not_updated, st1)
          | (Ok (Some _), st1) =>
              (Updated schema_name_input, snd (refresh_table st1))
          | (ValueError n, st1) => (Rejected (Name_exists n), st1)
          | (IntegrityError, st1) => (Failed, st1)
          end
      end
  end.

Definition save_data_product_changes (data_product_id : Z)
  (schema_name_input description_input owner_input : text_value)
  (creation_date_input : date_value) (st : DB) : notice * DB :=
  if missing schema_name_input then (Schema_name_required, st)
  else if missing owner_input then (Owner_required, st)
  else submit_changes data_product_id schema_name_input description_input
         owner_input creation_date_input st.

(** [confirm_delete()], the handler of the Delete button. *)
Definition confirm_delete (data_product_id : Z) (st : DB) : notice * DB :=
  match delete_data_product (Some data_product_id) st with
  | (true, st1) => (Deleted, snd (refresh_table st1))
  | (false, st1) => (Not_deleted, st1)
  end.

End Dialogs.

(** A dialog that reports success has changed the table. *)
Definition reports_success (n : notice) : bool :=
  match n with
  | Created _ | Updated _ | Deleted => true
  | _ => false
  end.

(** The two notices of the checks of the inputs. *)
Definition asks_for_input (n : notice) : bool :=
  match n with
  | Schema_name_required | Owner_required => true
  | _ => false
  end.

(** An input that [missing] refuses: nothing, the empty string, or a
    string that [strip] empties. *)
Definition blank_input (strip : string -> string) (v : text_value) : Prop :=
  v = None
  \/ exists s, v = Some s /\ (s = EmptyString \/ strip s = EmptyString).

(** A [strip] for the examples, which removes the ASCII whitespace at
    both ends; on a string of ASCII characters that is what [str.strip()]
    does. *)
Fixpoint lstrip (s : string) : string :=
  match s with
  | EmptyString => EmptyString
  | String c s' => if is_space c then lstrip s' else s
  end.

Fixpoint rstrip (s : string) : string :=
  match s with
  | EmptyString => EmptyString
  | String c s' =>
      match rstrip s' with
      | EmptyString => if is_space c then EmptyString else String c EmptyString
      | r => String c r
      end
  end.

Definition strip_ascii (s : string) : string := rstrip (lstrip s).

(** A date parser for the examples: it knows one date. *)
Definition parse_one_date (s : string) : option datetime :=
  if String.eqb s "2024-01-15" then Some 1705276800000000 else None.

(** * Properties *)

(** ** Ordered listings *)

Lemma newer_or_same_desc a b : newer_or_same a b = true <-> desc a b.
Proof.
  unfold newer_or_same, desc.
  destruct (creation_date a), (creation_date b);
    rewrite ?Z.leb_le; intuition congruence.
Qed.

Lemma desc_trans a b c : desc a b -> desc b c -> desc a c.
Proof.
  unfold desc.
  destruct (creation_date a), (creation_date b), (creation_date c);
    intros; try tauto; lia.
Qed.

Lemma desc_total a b : newer_or_same a b = false -> desc b a.
Proof.
  unfold newer_or_same, desc.
  destruct (creation_date a), (creation_date b);
    rewrite ?Z.leb_gt; intros; try discriminate; try exact I; lia.
Qed.

Lemma insert_desc_perm p l : Permutation (insert_desc p l) (p :: l).
Proof.
  induction l as [|q l IH]; simpl.
  - apply Permutation_refl.
  - destruct (newer_or_same p q).
    + apply Permutation_refl.
    + eapply perm_trans; [apply perm_skip, IH | apply perm_swap].
Qed.

Lemma order_by_perm l : Permutation (order_by_creation_date_desc l) l.
Proof.
  induction l as [|p l IH]; simpl.
  - constructor.
  - eapply perm_trans; [apply insert_desc_perm | now apply perm_skip].
Qed.

Lemma insert_desc_sorted p l :
  StronglySorted desc l -> StronglySorted desc (insert_desc p l).
Proof.
  induction 1 as [|q l Hs IH Hq]; simpl.
  - repeat constructor.
  - destruct (newer_or_same p q) eqn:E.
    + apply newer_or_same_desc in E.
      constructor; [now constructor|].
      constructor; [exact E|].
      eapply Forall_impl; [|exact Hq].
      intros c Hc. eapply desc_trans; eassumption.
    + constructor; [exact IH|].
      apply desc_total in E.
      eapply Permutation_Forall;
        [apply Permutation_sym, insert_desc_perm|].
      now constructor.
Qed.

Lemma order_by_sorted l : StronglySorted desc (order_by_creation_date_desc l).
Proof.
  induction l as [|p l IH]; simpl.
  - constructor.
  - now apply insert_desc_sorted.
Qed.

Lemma order_by_In l p : In p (order_by_creation_date_desc l) <-> In p l.
Proof.
  split; apply Permutation_in;
    [apply order_by_perm | apply Permutation_sym, order_by_perm].
Qed.

(** With pairwise distinct keys a descending list is strictly descending. *)
Lemma sorted_distinct_strict l :
  StronglySorted desc l -> NoDup (map creation_date l) ->
  StronglySorted strictly_desc l.
Proof.
  induction 1 as [|p l Hs IH Hp]; intros Hnd; [constructor|].
  simpl in Hnd. apply NoDup_cons_iff in Hnd as [Hnin Hnd].
  constructor; [now apply IH|].
  rewrite Forall_forall in *. intros q Hq.
  specialize (Hp q Hq).
  assert (Hne : creation_date p <> creation_date q).
  { intros E. apply Hnin. rewrite E. now apply in_map. }
  unfold desc, strictly_desc in *.
  destruct (creation_date p), (creation_date q); try tauto.
  assert (d <> d0) by congruence. lia.
Qed.

(** C8: [get_all_data_products] returns exactly the stored rows, most
    recent [creation_date] first; where the creation dates are pairwise
    distinct the order is strictly descending; an empty table gives the
    empty list. *)
Theorem get_all_data_products_ordered (st : DB) :
  Permutation (get_all_data_products st) (rows st)
  /\ StronglySorted desc (get_all_data_products st)
  /\ (NoDup (map creation_date (rows st)) ->
      StronglySorted strictly_desc (get_all_data_products st))
  /\ (rows st = [] -> get_all_data_products st = []).
Proof.
  unfold get_all_data_products.
  split; [apply order_by_perm|].
  split; [apply order_by_sorted|].
  split.
  - intros Hnd. apply sorted_distinct_strict; [apply order_by_sorted|].
    eapply Permutation_NoDup; [|exact Hnd].
    apply Permutation_map, Permutation_sym, order_by_perm.
  - intros ->. reflexivity.
Qed.

(** ** Lookups *)

Lemma id_is_true i p : id_is i p = true <-> id p = Some i.
Proof.
  unfold id_is. destruct (id p) as [j|].
  - rewrite Z.eqb_eq. split; congruence.
  - split; discriminate.
Qed.

Lemma name_is_true n p : name_is n p = true <-> schema_name p = Some n.
Proof.
  unfold name_is. destruct (schema_name p) as [m|].
  - rewrite String.eqb_eq. split; congruence.
  - split; discriminate.
Qed.

Lemma opt_string_eqb_eq a b : opt_string_eqb a b = true <-> a = b.
Proof.
  destruct a, b; simpl; rewrite ?String.eqb_eq;
    split; congruence.
Qed.

Lemma session_get_Some st i p :
  session_get st i = Some p -> In p (rows st) /\ id p = Some i.
Proof.
  unfold session_get. intros H. apply find_some in H.
  now rewrite id_is_true in H.
Qed.

Lemma session_get_None st i :
  session_get st i = None <-> forall p, In p (rows st) -> id p <> Some i.
Proof.
  unfold session_get. split.
  - intros H p Hp E. apply id_is_true in E.
    pose proof (find_none _ _ H p Hp). congruence.
  - intros H. destruct (find (id_is i) (rows st)) as [p|] eqn:E; [|reflexivity].
    apply find_some in E. rewrite id_is_true in E.
    destruct E as [Hin E]. now destruct (H p Hin).
Qed.

Lemma find_filter_out (f : DataProduct -> bool) l :
  find f (filter (fun q => negb (f q)) l) = None.
Proof.
  induction l as [|q l IH]; simpl; [reflexivity|].
  destruct (f q) eqn:E; simpl; [exact IH|].
  now rewrite E.
Qed.

Lemma find_filter_other i j l :
  i <> j ->
  find (id_is j) (filter (fun q => negb (id_is i q)) l) = find (id_is j) l.
Proof.
  intros Hne. induction l as [|q l IH]; simpl; [reflexivity|].
  destruct (id_is i q) eqn:Ei; simpl.
  - destruct (id_is j q) eqn:Ej; [|exact IH].
    apply id_is_true in Ei. apply id_is_true in Ej. congruence.
  - now rewrite IH.
Qed.

(** ** Deleting *)

(** C7: [delete_data_product] returns [True] exactly when a row with the
    given id is stored; that row is then removed, so the id no longer
    resolves, and every other id resolves as before.  With [None] or an id
    that is not stored it returns [False] and leaves the store untouched.
    The function has no failing outcome. *)
Theorem delete_data_product_spec (data_product_id : option Z) (st : DB) :
  (fst (delete_data_product data_product_id st) = true <->
     exists i p, data_product_id = Some i /\ session_get st i = Some p)
  /\ (fst (delete_data_product data_product_id st) = true ->
      get_data_product_by_id data_product_id
        (snd (delete_data_product data_product_id st)) = None
      /\ forall j, data_product_id <> Some j ->
           get_data_product_by_id (Some j)
             (snd (delete_data_product data_product_id st))
           = get_data_product_by_id (Some j) st)
  /\ (fst (delete_data_product data_product_id st) = false ->
      snd (delete_data_product data_product_id st) = st)
  /\ (data_product_id = None ->
      fst (delete_data_product data_product_id st) = false).
Proof.
  destruct data_product_id as [i|]; simpl.
  - destruct (session_get st i) as [p|] eqn:E; simpl.
    + split; [split; [intros _; now exists i, p | reflexivity]|].
      split; [|split; discriminate].
      intros _. split.
      * unfold session_get, commit_delete. simpl. apply find_filter_out.
      * intros j Hj. unfold session_get, commit_delete. simpl.
        apply find_filter_other. congruence.
    + split.
      { split; [discriminate|].
        intros (j & p & Hj & Hp). inversion Hj; subst. congruence. }
      split; [discriminate|]. split; [reflexivity|discriminate].
  - split.
    { split; [discriminate|]. intros (j & p & Hj & _). discriminate. }
    split; [discriminate|]. split; reflexivity.
Qed.

(** ** Searching *)

Lemma starts_with_prefix t s :
  starts_with t s = true <-> exists post, s = String.append t post.
Proof.
  revert s. induction t as [|a t IH]; intros s; simpl.
  - split; [intros _; now exists s | reflexivity].
  - destruct s as [|b s].
    + split; [discriminate | intros [post H]; discriminate].
    + rewrite andb_true_iff, Ascii.eqb_eq, IH. split.
      * intros [-> [post ->]]. now exists post.
      * intros [post H]. inversion H; subst. split; [reflexivity|now exists post].
Qed.

Lemma contains_substring t s : contains t s = true <-> substring_of t s.
Proof.
  unfold substring_of. induction s as [|b s IH].
  - simpl. rewrite orb_false_r, starts_with_prefix. split.
    + intros [post H]. now exists EmptyString, post.
    + intros (pre & post & H). destruct pre; simpl in H; [now exists post|discriminate].
  - change (contains t (String b s))
      with (starts_with t (String b s) || contains t s).
    rewrite orb_true_iff, IH, starts_with_prefix. split.
    + intros [[post H]|(pre & post & H)].
      * now exists EmptyString, post.
      * exists (String b pre), post. simpl. now rewrite H.
    + intros (pre & post & H). destruct pre as [|c pre]; simpl in H.
      * left. now exists post.
      * right. inversion H; subst. now exists pre, post.
Qed.

Lemma matches_true term p :
  matches term p = true <->
  exists n, schema_name p = Some n /\ substring_of (lower term) (lower n).
Proof.
  unfold matches. destruct (schema_name p) as [n|].
  - rewrite contains_substring. split.
    + intros H. now exists n.
    + intros (m & E & H). now inversion E; subst.
  - split; [discriminate | intros (m & E & _); discriminate].
Qed.

(** C1: the result of [search_data_products_by_schema_name] holds exactly
    the stored rows whose [schema_name], lower-cased, contains the
    lower-cased term, and every stored row when the term is empty or only
    whitespace, in which case it is the result of [get_all_data_products];
    it is ordered by [creation_date] descending; and when no row matches a
    term that is not blank it is the empty list. *)
Theorem search_data_products_by_schema_name_spec (term : string) (st : DB) :
  (forall p, In p (search_data_products_by_schema_name term st) <->
     In p (rows st)
     /\ (is_blank term = true
         \/ exists n, schema_name p = Some n
                      /\ substring_of (lower term) (lower n)))
  /\ (is_blank term = true ->
      search_data_products_by_schema_name term st = get_all_data_products st)
  /\ StronglySorted desc (search_data_products_by_schema_name term st)
  /\ (is_blank term = false ->
      (forall p n, In p (rows st) -> schema_name p = Some n ->
         ~ substring_of (lower term) (lower n)) ->
      search_data_products_by_schema_name term st = []).
Proof.
  unfold search_data_products_by_schema_name, get_all_data_products.
  destruct (is_blank term) eqn:B.
  - split; [|split; [reflexivity|split; [apply order_by_sorted|discriminate]]].
    intros p. rewrite order_by_In. tauto.
  - split; [|split; [discriminate|split; [apply order_by_sorted|]]].
    + intros p. rewrite order_by_In, filter_In, matches_true.
      split; [tauto|]. intros [H [H'|H']]; [discriminate|tauto].
    + intros _ Hno.
      replace (filter (matches term) (rows st)) with (@nil DataProduct);
        [reflexivity|].
      symmetry. induction (rows st) as [|q l IH]; simpl; [reflexivity|].
      destruct (matches term q) eqn:M.
      * apply matches_true in M. destruct M as (n & E & H).
        destruct (Hno q n (or_introl eq_refl) E H).
      * apply IH. intros p n Hp. apply Hno. now right.
Qed.

(** ** The engine keeps the table well formed *)

Lemma name_free_true l p :
  name_free l p = true <-> ~ In (schema_name p) (map schema_name l).
Proof.
  unfold name_free. rewrite negb_true_iff. split.
  - intros H Hin. apply in_map_iff in Hin as (q & E & Hq).
    assert (existsb (fun q => opt_string_eqb (schema_name q) (schema_name p)) l
            = true); [|congruence].
    apply existsb_exists. exists q. split; [exact Hq|].
    now apply opt_string_eqb_eq.
  - intros H.
    destruct (existsb (fun q => opt_string_eqb (schema_name q) (schema_name p)) l)
      eqn:E; [|reflexivity].
    apply existsb_exists in E as (q & Hq & E). apply opt_string_eqb_eq in E.
    destruct H. rewrite <- E. now apply in_map.
Qed.

Lemma wf_ext st st' :
  rows st' = rows st -> next_id st <= next_id st' -> wf st -> wf st'.
Proof.
  intros Hr Hn [H1 H2 H3 H4]. constructor; rewrite Hr; try assumption.
  intros p Hp. destruct (H1 p Hp) as (i & E & Hi). exists i. split; [exact E|lia].
Qed.

Lemma NoDup_map_filter {A B} (g : A -> B) (f : A -> bool) l :
  NoDup (map g l) -> NoDup (map g (filter f l)).
Proof.
  induction l as [|a l IH]; simpl; intros H; [constructor|].
  apply NoDup_cons_iff in H as [Hn H].
  destruct (f a); simpl; [|now apply IH].
  constructor; [|now apply IH].
  intros Hin. apply Hn. apply in_map_iff in Hin as (x & E & Hx).
  apply filter_In in Hx as [Hx _]. rewrite <- E. now apply in_map.
Qed.

Lemma wf_commit_delete i st : wf st -> wf (commit_delete i st).
Proof.
  intros [H1 H2 H3 H4]. constructor; simpl.
  - intros p Hp. apply filter_In in Hp as [Hp _]. now apply H1.
  - now apply NoDup_map_filter.
  - intros p Hp. apply filter_In in Hp as [Hp _]. now apply H3.
  - now apply NoDup_map_filter.
Qed.

Lemma NoDup_snoc {A} (l : list A) a : NoDup l -> ~ In a l -> NoDup (l ++ [a]).
Proof.
  intros Hl Ha. eapply Permutation_NoDup.
  - apply Permutation_cons_append.
  - now constructor.
Qed.

Lemma wf_commit_insert p st : wf st -> wf (snd (commit_insert p st)).
Proof.
  intros Hwf. unfold commit_insert.
  destruct (not_null (set_id p (next_id st))
            && name_free (rows st) (set_id p (next_id st))) eqn:E; simpl.
  - apply andb_true_iff in E as [Hnn Hfree].
    apply name_free_true in Hfree.
    destruct Hwf as [H1 H2 H3 H4]. constructor; simpl.
    + intros q Hq. apply in_app_or in Hq as [Hq|[<-|[]]].
      * destruct (H1 q Hq) as (i & Ei & Hi). exists i. split; [exact Ei|lia].
      * exists (next_id st). split; [reflexivity|lia].
    + rewrite map_app. simpl. apply NoDup_snoc; [exact H2|].
      intros Hin. apply in_map_iff in Hin as (q & Eq & Hq).
      destruct (H1 q Hq) as (i & Ei & Hi).
      rewrite Ei in Eq. inversion Eq. lia.
    + intros q Hq. apply in_app_or in Hq as [Hq|[<-|[]]]; [now apply H3|exact Hnn].
    + rewrite map_app. simpl. apply NoDup_snoc; assumption.
  - eapply wf_ext; [| |exact Hwf]; simpl; [reflexivity|lia].
Qed.

Lemma replaced_In i p l x :
  In x (replaced i p l) ->
  (x = p /\ exists q, In q l /\ id q = Some i) \/ (In x l /\ id_is i x = false).
Proof.
  unfold replaced. intros H. apply in_map_iff in H as (q & E & Hq).
  destruct (id_is i q) eqn:Ei.
  - left. split; [now symmetry|]. exists q. now rewrite <- id_is_true.
  - right. subst. now split.
Qed.

Lemma replaced_ids i p l :
  id p = Some i -> map id (replaced i p l) = map id l.
Proof.
  intros Hp. unfold replaced. rewrite map_map. apply map_ext_in.
  intros q _. destruct (id_is i q) eqn:E; [|reflexivity].
  apply id_is_true in E. congruence.
Qed.

Lemma replaced_names i p l :
  NoDup (map id l) -> NoDup (map schema_name l) ->
  name_free (filter (fun q => negb (id_is i q)) l) p = true ->
  NoDup (map schema_name (replaced i p l)).
Proof.
  induction l as [|q l IH]; simpl; intros Hid Hnm Hfree; [constructor|].
  apply NoDup_cons_iff in Hid as [Hq_id Hid].
  apply NoDup_cons_iff in Hnm as [Hq_nm Hnm].
  destruct (id_is i q) eqn:Ei; simpl in Hfree.
  - apply id_is_true in Ei.
    assert (Hsame : forall x, In x l -> id_is i x = false).
    { intros x Hx. destruct (id_is i x) eqn:Ex; [|reflexivity].
      apply id_is_true in Ex. destruct Hq_id. rewrite Ei, <- Ex.
      now apply in_map. }
    assert (Hl : replaced i p l = l).
    { unfold replaced. rewrite <- (map_id l) at 2. apply map_ext_in.
      intros x Hx. now rewrite (Hsame x Hx). }
    assert (Hf : filter (fun x => negb (id_is i x)) l = l).
    { clear -Hsame. induction l as [|x l IH]; simpl; [reflexivity|].
      rewrite (Hsame x (or_introl eq_refl)). simpl. f_equal.
      apply IH. intros y Hy. apply Hsame. now right. }
    fold (replaced i p l). rewrite Hl. rewrite Hf in Hfree.
    apply name_free_true in Hfree. now constructor.
  - apply name_free_true in Hfree. simpl in Hfree.
    fold (replaced i p l). constructor.
    + intros Hin. apply in_map_iff in Hin as (x & Ex & Hx).
      apply replaced_In in Hx as [[-> _]|[Hx _]].
      * apply Hfree. now left.
      * apply Hq_nm. rewrite <- Ex. now apply in_map.
    + apply IH; try assumption. apply name_free_true.
      intros Hin. apply Hfree. now right.
Qed.

Lemma wf_commit_update i p st :
  id p = Some i -> wf st -> wf (snd (commit_update i p st)).
Proof.
  intros Hp Hwf. unfold commit_update.
  destruct (not_null p
            && name_free (filter (fun q => negb (id_is i q)) (rows st)) p) eqn:E;
    simpl; [|exact Hwf].
  apply andb_true_iff in E as [Hnn Hfree].
  destruct Hwf as [H1 H2 H3 H4]. constructor; simpl.
  - intros x Hx. apply replaced_In in Hx as [[-> (q & Hq & Eq)]|[Hx _]].
    + destruct (H1 q Hq) as (j & Ej & Hj). exists i. split; [exact Hp|].
      rewrite Eq in Ej. inversion Ej. lia.
    + now apply H1.
  - now rewrite replaced_ids.
  - intros x Hx. apply replaced_In in Hx as [[-> _]|[Hx _]]; [exact Hnn|now apply H3].
  - now apply replaced_names.
Qed.

Lemma apply_updates_id u p : id (apply_updates u p) = id p.
Proof.
  unfold apply_updates, model_dump.
  destruct (u_schema_name u), (u_description u), (u_owner u),
    (u_creation_date u); reflexivity.
Qed.

Lemma wf_create utcnow data st :
  wf st -> wf (snd (create_data_product utcnow data st)).
Proof.
  intros Hwf. unfold create_data_product.
  destruct (get_data_product_by_schema_name (c_schema_name data) st);
    [exact Hwf|].
  destruct (c_creation_date data); simpl;
    apply wf_commit_insert; (eapply wf_ext; [| |exact Hwf]; simpl; [reflexivity|lia]).
Qed.

Lemma wf_update utcnow oid u st :
  wf st -> wf (snd (update_data_product utcnow oid u st)).
Proof.
  intros Hwf. unfold update_data_product.
  destruct oid as [i|]; [|exact Hwf].
  destruct (session_get st i) as [p|] eqn:Eg; [|exact Hwf].
  apply session_get_Some in Eg as [_ Hid].
  match goal with
  | |- context [match ?t with Some n => (ValueError n, st) | None => _ end] =>
      destruct t; [exact Hwf|]
  end.
  simpl.
  match goal with
  | |- context [commit_update i ?q ?s] =>
      assert (W : wf (snd (commit_update i q s)));
        [|destruct (commit_update i q s) as [[?|?|] ?]; exact W]
  end.
  apply wf_commit_update.
  - simpl. now rewrite apply_updates_id.
  - eapply wf_ext; [| |exact Hwf]; simpl; [reflexivity|lia].
Qed.

Lemma wf_delete oid st : wf st -> wf (snd (delete_data_product oid st)).
Proof.
  intros Hwf. unfold delete_data_product.
  destruct oid as [i|]; [|exact Hwf].
  destruct (session_get st i); [|exact Hwf].
  now apply wf_commit_delete.
Qed.

Lemma wf_empty : wf empty_db.
Proof.
  constructor; simpl; try constructor; intros p [].
Qed.

Lemma reachable_wf utcnow st : reachable utcnow st -> wf st.
Proof.
  induction 1 as [|c st _ IH]; [apply wf_empty|].
  destruct c; simpl; [apply wf_create|apply wf_update|apply wf_delete]; exact IH.
Qed.

(** ** Creating *)

Lemma find_app_new i l p :
  (forall q, In q l -> id q <> Some i) -> id p = Some i ->
  find (id_is i) (l ++ [p]) = Some p.
Proof.
  intros Hl Hp. induction l as [|q l IH]; simpl.
  - apply id_is_true in Hp. now rewrite Hp.
  - destruct (id_is i q) eqn:E.
    + apply id_is_true in E. destruct (Hl q (or_introl eq_refl) E).
    + apply IH. intros x Hx. apply Hl. now right.
Qed.

(** The shape of a successful [create_data_product]: which clock readings
    go where, the id taken from the sequence, and the row appended. *)
Lemma create_ok_inv utcnow data st p st' :
  create_data_product utcnow data st = (Ok p, st') ->
  let k := (ticks st + match c_creation_date data with
                       | Some _ => 0
                       | None => 1
                       end)%nat in
  get_data_product_by_schema_name (c_schema_name data) st = None
  /\ p = mkDataProduct (Some (next_id st)) (Some (c_schema_name data))
           (c_description data) (Some (c_owner data))
           (Some match c_creation_date data with
                 | Some d => d
                 | None => utcnow (ticks st)
                 end)
           (utcnow k) (utcnow (S k))
  /\ st' = mkDB (rows st ++ [p]) (next_id st + 1) (S (S k))
  /\ name_free (rows st) p = true.
Proof.
  unfold create_data_product.
  destruct (get_data_product_by_schema_name (c_schema_name data) st);
    [discriminate|].
  destruct (c_creation_date data) as [d|]; simpl;
    unfold commit_insert; simpl;
    match goal with
    | |- context [if ?c then _ else _] => destruct c eqn:E
    end; intros H; inversion H; subst; clear H;
    rewrite ?Nat.add_0_r, ?Nat.add_1_r; auto.
Qed.

Lemma create_stored_under_id utcnow data st st' p :
  wf st ->
  create_data_product utcnow data st = (Ok p, st') ->
  get_data_product_by_id (id p) st' = Some p
  /\ schema_name p = Some (c_schema_name data).
Proof.
  intros Hwf H. apply create_ok_inv in H as (_ & Hp & Hst & _).
  split; [|now subst p].
  assert (Hid : id p = Some (next_id st)) by now subst p.
  rewrite Hid. subst st'. unfold get_data_product_by_id, session_get. simpl.
  apply find_app_new; [|exact Hid].
  intros q Hq E. destruct (wf_ids _ Hwf q Hq) as (i & Ei & Hi).
  rewrite E in Ei. inversion Ei. lia.
Qed.

(** C2, as the code has it: a request that [create_data_product] accepts
    is stored under the id returned, with the caller's [schema_name],
    [description] and [owner], and the caller's [creation_date] when there
    is one; [id], [created_at] and [updated_at] are populated.  The stamps
    are successive clock readings.  With a [creation_date] supplied,
    [created_at] is the first reading of the call and [updated_at] the
    second; without one, [creation_date] is the first reading, [created_at]
    the second and [updated_at] the third.  So, whenever the clock does not
    run backwards, [created_at <= updated_at], and a defaulted
    [creation_date] is no later than [created_at]. *)
Theorem create_data_product_then_lookup
  (utcnow : nat -> datetime) (data : DataProductCreate) (st st' : DB)
  (p : DataProduct) :
  wf st ->
  create_data_product utcnow data st = (Ok p, st') ->
  (exists i, id p = Some i /\ get_data_product_by_id (Some i) st' = Some p)
  /\ schema_name p = Some (c_schema_name data)
  /\ description p = c_description data
  /\ owner p = Some (c_owner data)
  /\ (forall d, c_creation_date data = Some d ->
        creation_date p = Some d
        /\ created_at p = utcnow (ticks st)
        /\ updated_at p = utcnow (S (ticks st)))
  /\ (c_creation_date data = None ->
        creation_date p = Some (utcnow (ticks st))
        /\ created_at p = utcnow (S (ticks st))
        /\ updated_at p = utcnow (S (S (ticks st))))
  /\ (monotone utcnow ->
        created_at p <= updated_at p
        /\ (c_creation_date data = None ->
            creation_date p = Some (utcnow (ticks st))
            /\ utcnow (ticks st) <= created_at p)).
Proof.
  intros Hwf H. apply create_ok_inv in H as (_ & Hp & Hst & _).
  split.
  { exists (next_id st). subst p. simpl. split; [reflexivity|].
    subst st'. unfold session_get. simpl. apply find_app_new; [|reflexivity].
    intros q Hq E. destruct (wf_ids _ Hwf q Hq) as (i & Ei & Hi).
    rewrite E in Ei. inversion Ei. lia. }
  subst p. simpl. do 3 (split; [reflexivity|]).
  destruct (c_creation_date data) as [d0|];
    rewrite ?Nat.add_0_r, ?Nat.add_1_r.
  - split; [intros d E; inversion E; subst; auto|].
    split; [discriminate|].
    intros Hmono. split; [apply Hmono; lia|discriminate].
  - split; [discriminate|]. split; [auto|].
    intros Hmono. split; [apply Hmono; lia|].
    intros _. split; [reflexivity|apply Hmono; lia].
Qed.

(** C2, as the claim has it, fails: with a clock that advances by one
    microsecond per reading, the record created in an empty store has
    [created_at = 1] and [updated_at = 2]. *)
Lemma create_data_product_stamps_differ :
  exists p st',
    create_data_product tick_clock sales_request empty_db = (Ok p, st')
    /\ get_data_product_by_id (id p) st' = Some p
    /\ created_at p <> updated_at p.
Proof.
  eexists. eexists. split; [reflexivity|]. split; [reflexivity|].
  simpl. discriminate.
Qed.

Lemma get_by_schema_name_empty st :
  get_data_product_by_schema_name EmptyString st = None.
Proof. reflexivity. Qed.

Lemma get_by_schema_name_Some n st r :
  get_data_product_by_schema_name n st = Some r ->
  In r (rows st) /\ schema_name r = Some n /\ n <> EmptyString.
Proof.
  unfold get_data_product_by_schema_name.
  destruct (String.eqb n EmptyString) eqn:E; [discriminate|].
  intros H. apply find_some in H as [Hin H]. apply name_is_true in H.
  apply String.eqb_neq in E. auto.
Qed.

Lemma get_by_schema_name_found n st q :
  n <> EmptyString -> In q (rows st) -> schema_name q = Some n ->
  exists r, get_data_product_by_schema_name n st = Some r.
Proof.
  intros Hn Hq E. unfold get_data_product_by_schema_name.
  apply String.eqb_neq in Hn. rewrite Hn.
  destruct (find (name_is n) (rows st)) as [r|] eqn:F; [now exists r|].
  pose proof (find_none _ _ F q Hq) as C.
  apply name_is_true in E. congruence.
Qed.

Lemma get_by_schema_name_None n st :
  (forall q, In q (rows st) -> schema_name q <> Some n) ->
  get_data_product_by_schema_name n st = None.
Proof.
  intros H.
  destruct (get_data_product_by_schema_name n st) as [r|] eqn:E; [|reflexivity].
  apply get_by_schema_name_Some in E as (Hin & E & _).
  destruct (H r Hin E).
Qed.

Lemma name_taken l p q :
  In q l -> schema_name q = schema_name p -> name_free l p = false.
Proof.
  intros Hq E. destruct (name_free l p) eqn:F; [|reflexivity].
  apply name_free_true in F. destruct F. rewrite <- E. now apply in_map.
Qed.

(** A name that is stored is refused: by the service when it is not
    empty, by the unique index when it is.  The table stays as it was. *)
Lemma create_taken utcnow data st q :
  In q (rows st) -> schema_name q = Some (c_schema_name data) ->
  (c_schema_name data <> EmptyString ->
   create_data_product utcnow data st = (ValueError (c_schema_name data), st))
  /\ (c_schema_name data = EmptyString ->
      fst (create_data_product utcnow data st) = IntegrityError)
  /\ rows (snd (create_data_product utcnow data st)) = rows st.
Proof.
  intros Hq E. unfold create_data_product.
  destruct (get_data_product_by_schema_name (c_schema_name data) st) as [r|] eqn:G.
  - split; [reflexivity|]. split; [|reflexivity].
    intros Hn. apply get_by_schema_name_Some in G. tauto.
  - assert (Hn : c_schema_name data = EmptyString).
    { destruct (string_dec (c_schema_name data) EmptyString) as [|Hn]; [assumption|].
      destruct (get_by_schema_name_found _ _ _ Hn Hq E). congruence. }
    split; [tauto|].
    destruct (c_creation_date data) as [d|]; simpl; unfold commit_insert;
      simpl; (rewrite (name_taken _ _ q); [|exact Hq|exact E]); simpl; auto.
Qed.

(** A name that is not stored is accepted. *)
Lemma create_fresh utcnow data st :
  (forall q, In q (rows st) -> schema_name q <> Some (c_schema_name data)) ->
  exists p st', create_data_product utcnow data st = (Ok p, st').
Proof.
  intros Hfree. unfold create_data_product.
  rewrite (get_by_schema_name_None _ _ Hfree).
  assert (F : forall p, schema_name p = Some (c_schema_name data) ->
                        name_free (rows st) p = true).
  { intros p Hp. apply name_free_true. rewrite Hp. intros Hin.
    apply in_map_iff in Hin as (q & E & Hq). destruct (Hfree q Hq E). }
  destruct (c_creation_date data) as [d|]; simpl; unfold commit_insert;
    simpl; (rewrite F; [|reflexivity]); simpl; eauto.
Qed.

(** ** Updating *)

Lemma apply_updates_fields u p :
  schema_name (apply_updates u p) = merged_field (u_schema_name u) (schema_name p)
  /\ description (apply_updates u p) = merged_field (u_description u) (description p)
  /\ owner (apply_updates u p) = merged_field (u_owner u) (owner p)
  /\ creation_date (apply_updates u p)
     = merged_field (u_creation_date u) (creation_date p)
  /\ created_at (apply_updates u p) = created_at p.
Proof.
  unfold apply_updates, model_dump.
  destruct (u_schema_name u), (u_description u), (u_owner u),
    (u_creation_date u); simpl; auto.
Qed.

Lemma attr_merged {T} (f : field T) (old : option T) v :
  attr f = Some v -> merged_field f old = Some v.
Proof. destruct f; simpl; [discriminate|auto]. Qed.

Lemma NoDup_map_In_eq {A B} (g : A -> B) l a b :
  NoDup (map g l) -> In a l -> In b l -> g a = g b -> a = b.
Proof.
  induction l as [|x l IH]; simpl; intros Hnd Ha Hb E; [destruct Ha|].
  apply NoDup_cons_iff in Hnd as [Hx Hnd].
  destruct Ha as [->|Ha], Hb as [->|Hb]; auto.
  - destruct Hx. rewrite E. now apply in_map.
  - destruct Hx. rewrite <- E. now apply in_map.
Qed.

(** Renaming a row to a name another row holds is refused, and the table
    stays as it was. *)
Lemma update_taken utcnow st i u p n q :
  NoDup (map schema_name (rows st)) ->
  session_get st i = Some p ->
  attr (u_schema_name u) = Some n ->
  In q (rows st) -> id q <> Some i -> schema_name q = Some n ->
  is_ok (fst (update_data_product utcnow (Some i) u st)) = false
  /\ rows (snd (update_data_product utcnow (Some i) u st)) = rows st
  /\ (n <> EmptyString -> schema_name p <> Some n ->
      update_data_product utcnow (Some i) u st = (ValueError n, st)).
Proof.
  intros Hnd Hget Hattr Hq Hqi Hqn.
  pose proof (session_get_Some _ _ _ Hget) as [Hp Hpi].
  unfold update_data_product, renames. rewrite Hget, Hattr.
  destruct (opt_string_eqb (Some n) (schema_name p)) eqn:E.
  - apply opt_string_eqb_eq in E.
    assert (p = q) by (eapply NoDup_map_In_eq; eauto; congruence).
    subst q. contradiction.
  - destruct (get_data_product_by_schema_name n st) as [r|] eqn:G.
    + auto.
    + assert (Hn : n = EmptyString).
      { destruct (string_dec n EmptyString) as [|Hn]; [assumption|].
        destruct (get_by_schema_name_found _ _ _ Hn Hq Hqn). congruence. }
      simpl. unfold commit_update. simpl.
      rewrite (name_taken _ _ q).
      * rewrite andb_false_r. simpl. tauto.
      * apply filter_In. split; [exact Hq|].
        destruct (id_is i q) eqn:Ei; [|reflexivity].
        apply id_is_true in Ei. contradiction.
      * simpl. destruct (apply_updates_fields u p) as [-> _].
        now rewrite (attr_merged _ _ _ Hattr).
Qed.

(** C3: in every state reachable from the empty store by calls of
    [create_data_product], [update_data_product] and [delete_data_product],
    no two stored rows have the same [schema_name]; a creation under a name
    that is stored, and a rename to a name another row holds, do not
    succeed and leave the table as it was. *)
Theorem schema_name_unique_invariant (utcnow : nat -> datetime) (st : DB) :
  reachable utcnow st ->
  NoDup (map schema_name (rows st))
  /\ (forall data q,
        In q (rows st) -> schema_name q = Some (c_schema_name data) ->
        is_ok (fst (create_data_product utcnow data st)) = false
        /\ rows (snd (create_data_product utcnow data st)) = rows st)
  /\ (forall i u p n q,
        session_get st i = Some p ->
        attr (u_schema_name u) = Some n ->
        In q (rows st) -> id q <> Some i -> schema_name q = Some n ->
        is_ok (fst (update_data_product utcnow (Some i) u st)) = false
        /\ rows (snd (update_data_product utcnow (Some i) u st)) = rows st).
Proof.
  intros Hr. pose proof (wf_unique _ (reachable_wf _ _ Hr)) as Hnd.
  split; [exact Hnd|]. split.
  - intros data q Hq E.
    destruct (create_taken utcnow data st q Hq E) as (Hv & Hi & Hrows).
    split; [|exact Hrows].
    destruct (string_dec (c_schema_name data) EmptyString) as [Hn|Hn].
    + now rewrite (Hi Hn).
    + now rewrite (Hv Hn).
  - intros i u p n q Hget Hattr Hq Hqi Hqn.
    destruct (update_taken utcnow st i u p n q) as (H1 & H2 & _); auto.
Qed.

(** C6, as the code has it: creating under a stored name that is not
    empty raises the [ValueError] that names it and leaves the store as it
    was; and two requests whose names differ, be it only in letter case,
    are both accepted when neither name is stored. *)
Theorem create_data_product_duplicate_name
  (utcnow : nat -> datetime) (st : DB) :
  (forall data q,
     In q (rows st) -> schema_name q = Some (c_schema_name data) ->
     c_schema_name data <> EmptyString ->
     create_data_product utcnow data st = (ValueError (c_schema_name data), st))
  /\ (forall d1 d2,
        c_schema_name d1 <> c_schema_name d2 ->
        lower (c_schema_name d1) = lower (c_schema_name d2) ->
        (forall q, In q (rows st) ->
           schema_name q <> Some (c_schema_name d1)
           /\ schema_name q <> Some (c_schema_name d2)) ->
        exists p1 st1 p2 st2,
          create_data_product utcnow d1 st = (Ok p1, st1)
          /\ create_data_product utcnow d2 st1 = (Ok p2, st2)
          /\ schema_name p1 = Some (c_schema_name d1)
          /\ schema_name p2 = Some (c_schema_name d2)
          /\ In p1 (rows st2) /\ In p2 (rows st2)).
Proof.
  split.
  - intros data q Hq E Hn.
    destruct (create_taken utcnow data st q Hq E) as (Hv & _).
    exact (Hv Hn).
  - intros d1 d2 Hne _ Hfree.
    destruct (create_fresh utcnow d1 st) as (p1 & st1 & H1).
    { intros q Hq. now apply Hfree. }
    pose proof (create_ok_inv _ _ _ _ _ H1) as (_ & Hp1 & Hst1 & _).
    assert (N1 : schema_name p1 = Some (c_schema_name d1)) by now subst p1.
    destruct (create_fresh utcnow d2 st1) as (p2 & st2 & H2).
    { intros q Hq. rewrite Hst1 in Hq. simpl in Hq.
      apply in_app_or in Hq as [Hq|[<-|[]]]; [now apply Hfree|].
      rewrite N1. congruence. }
    pose proof (create_ok_inv _ _ _ _ _ H2) as (_ & Hp2 & Hst2 & _).
    exists p1, st1, p2, st2.
    split; [exact H1|]. split; [exact H2|]. split; [exact N1|].
    split; [now subst p2|].
    rewrite Hst2. simpl. rewrite Hst1 at 1. simpl. split.
    + apply in_or_app. left. apply in_or_app. right. now left.
    + apply in_or_app. right. now left.
Qed.

(** C6, as the claim has it, fails for the empty name: a second creation
    under the stored empty name passes the service's check and is stopped by
    the unique index, so it ends in the engine's [IntegrityError], not in
    the [ValueError] for a name that already exists. *)
Lemma create_data_product_duplicate_empty_name :
  let data := mkCreate EmptyString None "owner@company.com" None in
  let st := snd (create_data_product tick_clock data empty_db) in
  (exists q, In q (rows st) /\ schema_name q = Some (c_schema_name data))
  /\ fst (create_data_product tick_clock data st) = IntegrityError
  /\ fst (create_data_product tick_clock data st)
     <> ValueError (c_schema_name data).
Proof.
  simpl. split.
  - eexists. split; [left; reflexivity|reflexivity].
  - split; [reflexivity|discriminate].
Qed.

(** C10: for a request whose [schema_name] is empty the service's
    duplicate check finds nothing, whatever the store holds, so
    [create_data_product] never raises its [ValueError]; in a store where
    the empty name is free the request is accepted and the row stored under
    the returned id; and [get_data_product_by_schema_name] on the empty
    name returns [None] in every store, also one that holds such a row. *)
Theorem create_data_product_empty_schema_name
  (utcnow : nat -> datetime) (data : DataProductCreate) (st : DB) :
  c_schema_name data = EmptyString ->
  get_data_product_by_schema_name (c_schema_name data) st = None
  /\ (forall n, fst (create_data_product utcnow data st) <> ValueError n)
  /\ (wf st ->
      (forall q, In q (rows st) -> schema_name q <> Some EmptyString) ->
      exists p st',
        create_data_product utcnow data st = (Ok p, st')
        /\ schema_name p = Some EmptyString
        /\ get_data_product_by_id (id p) st' = Some p
        /\ get_data_product_by_schema_name EmptyString st' = None)
  /\ (forall st'' q,
        In q (rows st'') -> schema_name q = Some EmptyString ->
        get_data_product_by_schema_name EmptyString st'' = None).
Proof.
  intros Hn. rewrite Hn. split; [reflexivity|]. split.
  - intros n. unfold create_data_product. rewrite Hn.
    rewrite get_by_schema_name_empty.
    destruct (c_creation_date data); simpl; unfold commit_insert;
      match goal with
      | |- context [if ?c then _ else _] => destruct c
      end; simpl; discriminate.
  - split; [|reflexivity].
    intros Hwf Hfree.
    destruct (create_fresh utcnow data st) as (p & st' & H).
    { now rewrite Hn. }
    exists p, st'. split; [exact H|].
    destruct (create_stored_under_id utcnow data st st' p Hwf H)
      as (Hid & Hnm).
    rewrite Hnm, Hn. auto.
Qed.

Lemma find_replaced_same i p' l q :
  id p' = Some i -> find (id_is i) l = Some q ->
  find (id_is i) (replaced i p' l) = Some p'.
Proof.
  intros Hp. apply id_is_true in Hp.
  induction l as [|x l IH]; simpl; [discriminate|].
  destruct (id_is i x) eqn:E.
  - intros _. now rewrite Hp.
  - rewrite E. exact IH.
Qed.

Lemma find_replaced_other i j p' l :
  id p' = Some i -> j <> i ->
  find (id_is j) (replaced i p' l) = find (id_is j) l.
Proof.
  intros Hp Hj. induction l as [|x l IH]; simpl; [reflexivity|].
  destruct (id_is i x) eqn:E.
  - assert (id_is j p' = false) as ->.
    { destruct (id_is j p') eqn:F; [|reflexivity].
      apply id_is_true in F. congruence. }
    assert (id_is j x = false) as ->.
    { destruct (id_is j x) eqn:F; [|reflexivity].
      apply id_is_true in F. apply id_is_true in E. congruence. }
    exact IH.
  - now rewrite IH.
Qed.

(** The shape of a successful [update_data_product]. *)
Lemma update_ok_inv utcnow st i u p p' st' :
  session_get st i = Some p ->
  update_data_product utcnow (Some i) u st = (Ok (Some p'), st') ->
  p' = set_updated_at (apply_updates u p) (utcnow (ticks st))
  /\ st' = mkDB (replaced i p' (rows st)) (next_id st) (S (ticks st))
  /\ not_null p' = true.
Proof.
  intros Hget. unfold update_data_product. rewrite Hget.
  match goal with
  | |- context [match ?t with Some n => (ValueError n, st) | None => _ end] =>
      destruct t; [discriminate|]
  end.
  simpl. unfold commit_update. simpl.
  match goal with
  | |- context [if ?c then _ else _] => destruct c eqn:E
  end; [|discriminate].
  apply andb_true_iff in E as [E _].
  intros H. inversion H; subst. auto.
Qed.

(** When the uniqueness check does not trip and the merged object passes
    the column constraints, the update is committed. *)
Lemma update_commits utcnow st i u p :
  session_get st i = Some p ->
  renames u p = None ->
  not_null (apply_updates u p) = true ->
  name_free (filter (fun q => negb (id_is i q)) (rows st)) (apply_updates u p)
  = true ->
  exists p' st', update_data_product utcnow (Some i) u st = (Ok (Some p'), st').
Proof.
  intros Hget Hren Hnn Hfree. unfold update_data_product.
  rewrite Hget, Hren. simpl. unfold commit_update. simpl.
  replace (not_null (set_updated_at (apply_updates u p) (utcnow (ticks st))))
    with true by (symmetry; exact Hnn).
  replace (name_free (filter (fun q => negb (id_is i q)) (rows st))
             (set_updated_at (apply_updates u p) (utcnow (ticks st))))
    with true by (symmetry; exact Hfree).
  simpl. eauto.
Qed.

(** ** Stamps *)

Lemma stamped_create utcnow data st :
  stamped utcnow st -> stamped utcnow (snd (create_data_product utcnow data st)).
Proof.
  intros Hs. unfold create_data_product.
  destruct (get_data_product_by_schema_name (c_schema_name data) st);
    [exact Hs|].
  destruct (c_creation_date data); simpl; unfold commit_insert;
    match goal with
    | |- context [if ?c then _ else _] => destruct c
    end; simpl; intros q Hq; simpl in *;
    try (apply in_app_or in Hq as [Hq|[<-|[]]];
         [|simpl; eexists; split; [|reflexivity]; lia]);
    destruct (Hs q Hq) as (k & Hk & E); exists k; (split; [lia|exact E]).
Qed.

Lemma stamped_update utcnow oid u st :
  stamped utcnow st ->
  stamped utcnow (snd (update_data_product utcnow oid u st)).
Proof.
  intros Hs. unfold update_data_product.
  destruct oid as [i|]; [|exact Hs].
  destruct (session_get st i) as [p|]; [|exact Hs].
  match goal with
  | |- context [match ?t with Some n => (ValueError n, st) | None => _ end] =>
      destruct t; [exact Hs|]
  end.
  simpl. unfold commit_update.
  match goal with
  | |- context [if ?c then _ else _] => destruct c
  end; simpl; intros q Hq; simpl in *.
  - apply replaced_In in Hq as [[-> _]|[Hq _]].
    + simpl. exists (ticks st). split; [lia|reflexivity].
    + destruct (Hs q Hq) as (k & Hk & E). exists k. split; [lia|exact E].
  - destruct (Hs q Hq) as (k & Hk & E). exists k. split; [lia|exact E].
Qed.

Lemma stamped_delete utcnow oid st :
  stamped utcnow st -> stamped utcnow (snd (delete_data_product oid st)).
Proof.
  intros Hs. unfold delete_data_product.
  destruct oid as [i|]; [|exact Hs].
  destruct (session_get st i); [|exact Hs].
  intros q Hq. simpl in Hq. apply filter_In in Hq as [Hq _]. now apply Hs.
Qed.

Lemma reachable_stamped utcnow st : reachable utcnow st -> stamped utcnow st.
Proof.
  induction 1 as [|c st _ IH]; [intros p []|].
  destruct c; simpl;
    [apply stamped_create|apply stamped_update|apply stamped_delete]; exact IH.
Qed.



Lemma merged_field_Some {T} (f : field T) (old : option T) :
  f <> Provided None -> old <> None -> merged_field f old <> None.
Proof.
  destruct f as [|[v|]]; simpl; intros Hf Hold; try assumption;
    [discriminate|now destruct Hf].
Qed.

Lemma renames_same u p :
  attr (u_schema_name u) = schema_name p -> renames u p = None.
Proof.
  unfold renames. intros ->. destruct (schema_name p) as [n|]; [|reflexivity].
  simpl. now rewrite String.eqb_refl.
Qed.

Lemma update_not_ValueError utcnow st i u p n :
  session_get st i = Some p -> renames u p = None ->
  fst (update_data_product utcnow (Some i) u st) <> ValueError n.
Proof.
  intros Hget Hren. unfold update_data_product. rewrite Hget, Hren.
  simpl. unfold commit_update.
  match goal with
  | |- context [if ?c then _ else _] => destruct c
  end; simpl; discriminate.
Qed.

(** C5: an update whose [schema_name] is the row's current one is never
    taken for a duplicate: the uniqueness check is skipped, no [ValueError]
    is raised, and the update is committed with the name unchanged (given
    that the request does not put [None] in [owner] or [creation_date],
    which the columns refuse).  An update whose [schema_name] differs from
    the current one and resolves, through
    [get_data_product_by_schema_name], to a stored row raises the
    [ValueError] for that name and changes nothing.  With [None] or an id
    that is not stored, the result is [None], no error is raised and the
    store is as it was. *)
Theorem update_data_product_rename_rules
  (utcnow : nat -> datetime) (st : DB) :
  wf st ->
  (forall i u p,
     session_get st i = Some p ->
     attr (u_schema_name u) = schema_name p ->
     renames u p = None
     /\ (forall n, fst (update_data_product utcnow (Some i) u st) <> ValueError n)
     /\ (u_owner u <> Provided None -> u_creation_date u <> Provided None ->
         exists p' st',
           update_data_product utcnow (Some i) u st = (Ok (Some p'), st')
           /\ schema_name p' = schema_name p))
  /\ (forall i u p n r,
        session_get st i = Some p ->
        attr (u_schema_name u) = Some n ->
        schema_name p <> Some n ->
        get_data_product_by_schema_name n st = Some r ->
        update_data_product utcnow (Some i) u st = (ValueError n, st))
  /\ (forall u, update_data_product utcnow None u st = (Ok None, st))
  /\ (forall i u,
        session_get st i = None ->
        update_data_product utcnow (Some i) u st = (Ok None, st)).
Proof.
  intros Hwf. split; [|split; [|split]].
  - intros i u p Hget Hattr.
    pose proof (renames_same _ _ Hattr) as Hren.
    split; [exact Hren|].
    split; [intros n; now apply update_not_ValueError with (p := p)|].
    intros Hown Hdate.
    destruct (session_get_Some _ _ _ Hget) as [Hin Hid].
    destruct (apply_updates_fields u p) as (F1 & _ & F3 & F4 & _).
    pose proof (wf_not_null _ Hwf p Hin) as Hnn. unfold not_null in Hnn.
    destruct (schema_name p) as [n|] eqn:En; [|discriminate].
    destruct (owner p) as [o|] eqn:Eo; [|discriminate].
    destruct (creation_date p) as [d|] eqn:Ed; [|discriminate].
    assert (N : schema_name (apply_updates u p) = Some n).
    { rewrite F1. now apply attr_merged. }
    destruct (update_commits utcnow st i u p Hget Hren) as (p' & st' & Hup).
    + unfold not_null. rewrite N.
      pose proof (merged_field_Some (u_owner u) (Some o) Hown) as Ho.
      pose proof (merged_field_Some (u_creation_date u) (Some d) Hdate) as Hd.
      rewrite <- F3 in Ho. rewrite <- F4 in Hd.
      destruct (owner (apply_updates u p)); [|now destruct Ho].
      destruct (creation_date (apply_updates u p)); [reflexivity|now destruct Hd].
    + apply name_free_true. rewrite N. intros Hq.
      apply in_map_iff in Hq as (q & Eq & Hq).
      apply filter_In in Hq as [Hq Hqi].
      assert (p = q).
      { eapply NoDup_map_In_eq; [apply (wf_unique _ Hwf)|exact Hin|exact Hq|].
        congruence. }
      subst q. apply id_is_true in Hid. rewrite Hid in Hqi. discriminate.
    + exists p', st'. split; [exact Hup|].
      destruct (update_ok_inv _ _ _ _ _ _ _ Hget Hup) as (-> & _).
      exact N.
  - intros i u p n r Hget Hattr Hne Hfound.
    unfold update_data_product, renames. rewrite Hget, Hattr.
    destruct (opt_string_eqb (Some n) (schema_name p)) eqn:E.
    + apply opt_string_eqb_eq in E. congruence.
    + now rewrite Hfound.
  - reflexivity.
  - intros i u Hget. unfold update_data_product. now rewrite Hget.
Qed.

(** C9, as the code has it: an update whose [schema_name] field is set to
    [None] skips the uniqueness check and carries the field into the merge,
    so the loaded object's [schema_name] becomes [None]; the commit is then
    refused by the column, which is [NOT NULL]: the call ends in the
    engine's [IntegrityError] and the table is as it was. *)
Theorem update_data_product_null_schema_name
  (utcnow : nat -> datetime) (st : DB) (i : Z)
  (u : DataProductUpdate) (p : DataProduct) :
  session_get st i = Some p ->
  u_schema_name u = Provided None ->
  renames u p = None
  /\ In (Set_schema_name None) (model_dump u)
  /\ schema_name (apply_updates u p) = None
  /\ fst (update_data_product utcnow (Some i) u st) = IntegrityError
  /\ rows (snd (update_data_product utcnow (Some i) u st)) = rows st
  /\ get_data_product_by_id (Some i)
       (snd (update_data_product utcnow (Some i) u st)) = Some p.
Proof.
  intros Hget Hnull.
  assert (Hren : renames u p = None) by (unfold renames; now rewrite Hnull).
  assert (Hm : schema_name (apply_updates u p) = None).
  { destruct (apply_updates_fields u p) as (-> & _). now rewrite Hnull. }
  split; [exact Hren|].
  split; [unfold model_dump; rewrite Hnull; now left|].
  split; [exact Hm|].
  unfold update_data_product. rewrite Hget, Hren. simpl.
  unfold commit_update, not_null. simpl. rewrite Hm. simpl.
  repeat split. exact Hget.
Qed.

(** C9, as the claim has it, fails: after the call the stored row still
    has its [schema_name], and the call has ended in an error. *)
Lemma null_schema_name_is_not_stored :
  let st := one_row_db in
  let u := mkUpdate (Provided None) Unset Unset Unset in
  (exists p, get_data_product_by_id (Some 1) st = Some p)
  /\ fst (update_data_product tick_clock (Some 1) u st) = IntegrityError
  /\ exists p',
       get_data_product_by_id (Some 1)
         (snd (update_data_product tick_clock (Some 1) u st)) = Some p'
       /\ schema_name p' = Some "sales_analytics"%string
       /\ schema_name p' <> None.
Proof.
  simpl. split; [eexists; reflexivity|]. split; [reflexivity|].
  eexists. split; [reflexivity|]. split; [reflexivity|discriminate].
Qed.

(** * The theorems at work on concrete stores *)

Lemma reachable_one_row_db : reachable tick_clock one_row_db.
Proof. apply reach_step, reach_empty. Defined.

Lemma reachable_search_db : reachable tick_clock search_db.
Proof. repeat apply reach_step. apply reach_empty. Defined.


(** The search of the test suite: [SALES] finds [SALES_reports] and
    [sales_analytics], most recent first, and not [marketing_metrics]. *)
Example search_SALES :
  map schema_name (search_data_products_by_schema_name "SALES" search_db)
  = [Some "SALES_reports"%string; Some "sales_analytics"%string].
Proof. reflexivity. Qed.

Lemma search_data_products_by_schema_name_spec_witness :
  is_blank "   " = true
  /\ search_data_products_by_schema_name "   " search_db
     = get_all_data_products search_db
  /\ is_blank "finance" = false
  /\ search_data_products_by_schema_name "finance" search_db = [].
Proof.
  destruct (search_data_products_by_schema_name_spec "   " search_db)
    as (_ & Hblank & _).
  destruct (search_data_products_by_schema_name_spec "finance" search_db)
    as (_ & _ & _ & Hnone).
  split; [reflexivity|]. split; [apply Hblank; reflexivity|].
  split; [reflexivity|]. apply Hnone; [reflexivity|].
  intros p n Hp Hn Hsub. apply contains_substring in Hsub.
  simpl in Hp.
  destruct Hp as [<-|[<-|[<-|[]]]]; inversion Hn; subst n;
    vm_compute in Hsub; discriminate.
Defined.

Lemma create_data_product_then_lookup_witness :
  wf empty_db
  /\ exists p st',
       create_data_product tick_clock sales_request empty_db = (Ok p, st')
       /\ get_data_product_by_id (Some 1) st' = Some p
       /\ schema_name p = Some (c_schema_name sales_request)
       /\ description p = c_description sales_request
       /\ owner p = Some (c_owner sales_request)
       /\ creation_date p = Some (tick_clock 0)
       /\ created_at p = tick_clock 1
       /\ updated_at p = tick_clock 2.
Proof.
  split; [apply wf_empty|].
  eexists. eexists. split; [reflexivity|].
  destruct (create_data_product_then_lookup tick_clock sales_request
              empty_db _ _ wf_empty eq_refl)
    as ((i & Hi & Hget) & Hn & Hd & Ho & _ & Hdef & _).
  destruct (Hdef eq_refl) as (Hcd & Hca & Hua).
  split; [inversion Hi; subst i; exact Hget|].
  do 3 (split; [assumption|]).
  split; [exact Hcd|]. split; [exact Hca|exact Hua].
Defined.

Lemma schema_name_unique_invariant_witness :
  reachable tick_clock one_row_db
  /\ NoDup (map schema_name (rows one_row_db))
  /\ is_ok (fst (create_data_product tick_clock sales_request one_row_db))
     = false
  /\ rows (snd (create_data_product tick_clock sales_request one_row_db))
     = rows one_row_db.
Proof.
  split; [apply reachable_one_row_db|].
  destruct (schema_name_unique_invariant tick_clock one_row_db
              reachable_one_row_db) as (Hnd & Hc & _).
  split; [exact Hnd|].
  eapply Hc; [left; reflexivity|reflexivity].
Defined.


Lemma update_data_product_rename_rules_witness :
  let same := mkUpdate (Provided (Some "sales_analytics"%string))
                       (Provided (Some "Updated description"%string))
                       Unset Unset in
  wf one_row_db
  /\ (exists p' st',
        update_data_product tick_clock (Some 1) same one_row_db
        = (Ok (Some p'), st')
        /\ schema_name p' = Some "sales_analytics"%string)
  /\ update_data_product tick_clock (Some 999) same one_row_db
     = (Ok None, one_row_db).
Proof.
  intros same.
  pose proof (reachable_wf _ _ reachable_one_row_db) as Hwf.
  split; [exact Hwf|].
  destruct (update_data_product_rename_rules tick_clock one_row_db Hwf)
    as (Hsame & _ & _ & Hmissing).
  split.
  - destruct (Hsame 1 same _ eq_refl eq_refl) as (_ & _ & Hok).
    destruct Hok as (p' & st' & Hup & Hn); [discriminate|discriminate|].
    exists p', st'. split; [exact Hup|exact Hn].
  - apply Hmissing. reflexivity.
Defined.

Lemma create_data_product_duplicate_name_witness :
  let upper := mkCreate "Sales" None "owner@company.com" None in
  let lowercase := mkCreate "sales" None "owner@company.com" None in
  create_data_product tick_clock sales_request one_row_db
  = (ValueError "sales_analytics", one_row_db)
  /\ exists p1 st1 p2 st2,
       create_data_product tick_clock upper one_row_db = (Ok p1, st1)
       /\ create_data_product tick_clock lowercase st1 = (Ok p2, st2)
       /\ schema_name p1 = Some "Sales"%string
       /\ schema_name p2 = Some "sales"%string
       /\ In p1 (rows st2) /\ In p2 (rows st2).
Proof.
  intros upper lowercase.
  destruct (create_data_product_duplicate_name tick_clock one_row_db)
    as (Hdup & Hcase).
  split.
  - eapply (Hdup sales_request); [left; reflexivity|reflexivity|discriminate].
  - apply (Hcase upper lowercase); [discriminate|reflexivity|].
    intros q [<-|[]]; split; discriminate.
Defined.

Lemma delete_data_product_spec_witness :
  fst (delete_data_product (Some 1) one_row_db) = true
  /\ get_data_product_by_id (Some 1)
       (snd (delete_data_product (Some 1) one_row_db)) = None
  /\ fst (delete_data_product (Some 999) one_row_db) = false
  /\ snd (delete_data_product (Some 999) one_row_db) = one_row_db.
Proof.
  destruct (delete_data_product_spec (Some 1) one_row_db)
    as (_ & Hgone & _).
  destruct (delete_data_product_spec (Some 999) one_row_db)
    as (_ & _ & Hsame & _).
  split; [reflexivity|]. split; [apply Hgone; reflexivity|].
  split; [reflexivity|]. apply Hsame. reflexivity.
Defined.

Lemma get_all_data_products_ordered_witness :
  NoDup (map creation_date (rows search_db))
  /\ StronglySorted strictly_desc (get_all_data_products search_db)
  /\ map schema_name (get_all_data_products search_db)
     = [Some "SALES_reports"; Some "marketing_metrics";
        Some "sales_analytics"]%string.
Proof.
  assert (Hnd : NoDup (map creation_date (rows search_db))).
  { simpl. repeat constructor; simpl; intuition discriminate. }
  split; [exact Hnd|]. split; [|reflexivity].
  now apply (get_all_data_products_ordered search_db).
Defined.

Lemma update_data_product_null_schema_name_witness :
  let u := mkUpdate (Provided None) Unset Unset Unset in
  exists p,
    session_get one_row_db 1 = Some p
    /\ u_schema_name u = Provided None
    /\ schema_name (apply_updates u p) = None
    /\ fst (update_data_product tick_clock (Some 1) u one_row_db)
       = IntegrityError
    /\ rows (snd (update_data_product tick_clock (Some 1) u one_row_db))
       = rows one_row_db.
Proof.
  intros u. eexists. split; [reflexivity|]. split; [reflexivity|].
  destruct (update_data_product_null_schema_name tick_clock one_row_db 1 u _
              eq_refl eq_refl) as (_ & _ & Hm & He & Hr & _).
  split; [exact Hm|]. split; [exact He|exact Hr].
Defined.

Lemma create_data_product_empty_schema_name_witness :
  let data := mkCreate EmptyString None "owner@company.com" None in
  c_schema_name data = EmptyString
  /\ wf empty_db
  /\ exists p st',
       create_data_product tick_clock data empty_db = (Ok p, st')
       /\ schema_name p = Some EmptyString
       /\ get_data_product_by_id (id p) st' = Some p
       /\ get_data_product_by_schema_name EmptyString st' = None.
Proof.
  intros data. split; [reflexivity|]. split; [apply wf_empty|].
  destruct (create_data_product_empty_schema_name tick_clock data empty_db
              eq_refl) as (_ & _ & Hok & _).
  apply Hok; [apply wf_empty|]. intros q [].
Defined.

(** * Further properties of the service *)

(** ** What a call does to the table *)

Lemma find_app {A} (f : A -> bool) l l' :
  find f (l ++ l') = match find f l with
                     | Some x => Some x
                     | None => find f l'
                     end.
Proof.
  induction l as [|a l IH]; simpl; [reflexivity|].
  now destruct (f a).
Qed.

(** [create_data_product] either leaves the rows alone, and then it has
    failed, or appends the record it returns, whose id is the next of the
    sequence. *)
Lemma create_cases utcnow data st :
  (is_ok (fst (create_data_product utcnow data st)) = false
   /\ rows (snd (create_data_product utcnow data st)) = rows st)
  \/ (exists p st',
        create_data_product utcnow data st = (Ok p, st')
        /\ rows st' = rows st ++ [p]
        /\ id p = Some (next_id st)).
Proof.
  destruct (create_data_product utcnow data st) as [[p| |] st'] eqn:E; simpl;
    try (left; split; [reflexivity|]).
  - right. exists p, st'. split; [reflexivity|].
    apply create_ok_inv in E as (_ & Hp & Hst & _).
    split; [now subst st'|now subst p].
  - unfold create_data_product in E.
    destruct (get_data_product_by_schema_name (c_schema_name data) st);
      [now inversion E|].
    destruct (c_creation_date data); simpl in E; unfold commit_insert in E;
      match type of E with
      | context [if ?c then _ else _] => destruct c
      end; inversion E.
  - unfold create_data_product in E.
    destruct (get_data_product_by_schema_name (c_schema_name data) st);
      [now inversion E|].
    destruct (c_creation_date data); simpl in E; unfold commit_insert in E;
      match type of E with
      | context [if ?c then _ else _] => destruct c
      end; inversion E; reflexivity.
Qed.

Lemma create_next_id utcnow data st :
  next_id st <= next_id (snd (create_data_product utcnow data st)).
Proof.
  unfold create_data_product.
  destruct (get_data_product_by_schema_name (c_schema_name data) st);
    [simpl; lia|].
  destruct (c_creation_date data); simpl; unfold commit_insert;
    match goal with
    | |- context [if ?c then _ else _] => destruct c
    end; simpl; lia.
Qed.

(** [update_data_product] either leaves the rows alone, and then it has
    not returned a record, or replaces the row of the given id by the
    record it returns. *)
Lemma update_cases utcnow oid u st :
  ((forall p', fst (update_data_product utcnow oid u st) <> Ok (Some p'))
   /\ rows (snd (update_data_product utcnow oid u st)) = rows st)
  \/ (exists i p p' st',
        oid = Some i
        /\ session_get st i = Some p
        /\ update_data_product utcnow oid u st = (Ok (Some p'), st')
        /\ p' = set_updated_at (apply_updates u p) (utcnow (ticks st))
        /\ rows st' = replaced i p' (rows st)
        /\ name_free (filter (fun q => negb (id_is i q)) (rows st)) p' = true).
Proof.
  unfold update_data_product.
  destruct oid as [i|]; [|left; split; [discriminate|reflexivity]].
  destruct (session_get st i) as [p|] eqn:Hget;
    [|left; split; [discriminate|reflexivity]].
  match goal with
  | |- context [match ?t with Some n => (ValueError n, st) | None => _ end] =>
      destruct t; [left; split; [discriminate|reflexivity]|]
  end.
  simpl. unfold commit_update. simpl.
  match goal with
  | |- context [if ?c then _ else _] => destruct c eqn:E
  end; simpl.
  - right. apply andb_true_iff in E as [_ E].
    eexists i, p, _, _.
    split; [reflexivity|]. split; [exact Hget|]. split; [reflexivity|].
    split; [reflexivity|]. split; [reflexivity|exact E].
  - left. split; [discriminate|reflexivity].
Qed.

Lemma update_next_id utcnow oid u st :
  next_id (snd (update_data_product utcnow oid u st)) = next_id st.
Proof.
  unfold update_data_product.
  destruct oid as [i|]; [|reflexivity].
  destruct (session_get st i) as [p|]; [|reflexivity].
  match goal with
  | |- context [match ?t with Some n => (ValueError n, st) | None => _ end] =>
      destruct t; [reflexivity|]
  end.
  simpl. unfold commit_update. simpl.
  match goal with
  | |- context [if ?c then _ else _] => destruct c
  end; reflexivity.
Qed.

Lemma delete_next_id oid st :
  next_id (snd (delete_data_product oid st)) = next_id st.
Proof.
  unfold delete_data_product. destruct oid as [i|]; [|reflexivity].
  now destruct (session_get st i).
Qed.

Lemma exec_next_id utcnow c st : next_id st <= next_id (exec utcnow c st).
Proof.
  destruct c; simpl.
  - apply create_next_id.
  - rewrite update_next_id. lia.
  - rewrite delete_next_id. lia.
Qed.

Lemma replaced_length i p l : List.length (replaced i p l) = List.length l.
Proof. apply length_map. Qed.

(** In a table with a primary key, deleting by id removes one row. *)
Lemma filter_out_one i l p :
  NoDup (map id l) -> In p l -> id p = Some i ->
  S (List.length (filter (fun q => negb (id_is i q)) l)) = List.length l.
Proof.
  induction l as [|q l IH]; simpl; intros Hnd Hin Hid; [destruct Hin|].
  apply NoDup_cons_iff in Hnd as [Hq Hnd].
  destruct (id_is i q) eqn:E; simpl.
  - f_equal. apply id_is_true in E.
    clear IH Hin. induction l as [|x l IH]; simpl; [reflexivity|].
    destruct (id_is i x) eqn:Ex.
    + apply id_is_true in Ex. destruct Hq. left. congruence.
    + simpl. f_equal. apply IH.
      * intros H. apply Hq. now right.
      * now inversion Hnd.
  - f_equal. destruct Hin as [->|Hin].
    + apply id_is_true in Hid. congruence.
    + now apply IH.
Qed.

Lemma listing_length st :
  List.length (get_all_data_products st) = get_data_products_count st.
Proof. apply Permutation_length, order_by_perm. Qed.

(** X1: the count is the length of the listing, in every store. *)
Theorem count_is_length_of_listing (st : DB) :
  get_data_products_count st = List.length (get_all_data_products st).
Proof.
  unfold get_data_products_count, get_all_data_products.
  symmetry. apply Permutation_length, order_by_perm.
Qed.

(** X2: how the calls move the count.  A creation that returns a record
    adds one and a creation that fails adds nothing; an update never
    changes the count, nor the ids stored; a deletion that returns [True]
    takes exactly one away and one that returns [False] takes nothing. *)
Theorem count_after_calls (utcnow : nat -> datetime) (st : DB) :
  wf st ->
  (forall data,
     get_data_products_count (snd (create_data_product utcnow data st))
     = if is_ok (fst (create_data_product utcnow data st))
       then S (get_data_products_count st)
       else get_data_products_count st)
  /\ (forall oid u,
        get_data_products_count (snd (update_data_product utcnow oid u st))
        = get_data_products_count st
        /\ map id (rows (snd (update_data_product utcnow oid u st)))
           = map id (rows st))
  /\ (forall oid,
        (if fst (delete_data_product oid st)
         then S (get_data_products_count (snd (delete_data_product oid st)))
         else get_data_products_count (snd (delete_data_product oid st)))
        = get_data_products_count st).
Proof.
  intros Hwf. unfold get_data_products_count. split; [|split].
  - intros data.
    destruct (create_cases utcnow data st)
      as [[Hf Hr]|(p & st' & E & Hr & _)].
    + now rewrite Hf, Hr.
    + rewrite E. simpl. rewrite Hr, length_app. simpl. lia.
  - intros oid u.
    destruct (update_cases utcnow oid u st)
      as [[_ Hr]|(i & p & p' & st' & _ & Hget & E & Hp' & Hr & _)].
    + now rewrite Hr.
    + rewrite E. simpl. rewrite Hr. split; [apply replaced_length|].
      apply replaced_ids. rewrite Hp'. simpl. rewrite apply_updates_id.
      now apply session_get_Some in Hget.
  - intros oid. unfold delete_data_product.
    destruct oid as [i|]; [|reflexivity].
    destruct (session_get st i) as [p|] eqn:Hget; [|reflexivity].
    simpl. apply session_get_Some in Hget as [Hin Hid].
    eapply filter_out_one; [apply (wf_pk _ Hwf)|exact Hin|exact Hid].
Qed.

(** ** Outcomes *)

Lemma taken_dec n st : taken n st \/ ~ taken n st.
Proof.
  unfold taken. destruct (find (name_is n) (rows st)) as [q|] eqn:E.
  - left. apply find_some in E as [Hin E]. apply name_is_true in E. eauto.
  - right. intros (q & Hq & Hn). apply name_is_true in Hn.
    pose proof (find_none _ _ E q Hq). congruence.
Qed.

(** X3: the three outcomes of [create_data_product], by the name asked
    for.  It returns a record exactly when no stored row has the name; it
    raises its [ValueError], changing nothing at all, exactly when the name
    is stored and not empty; it ends in the engine's [IntegrityError]
    exactly when the name is stored and empty; and whenever it fails the
    rows are as before. *)
Theorem create_data_product_outcomes
  (utcnow : nat -> datetime) (data : DataProductCreate) (st : DB) :
  (is_ok (fst (create_data_product utcnow data st)) = true
   <-> ~ taken (c_schema_name data) st)
  /\ (create_data_product utcnow data st = (ValueError (c_schema_name data), st)
      <-> taken (c_schema_name data) st /\ c_schema_name data <> EmptyString)
  /\ (fst (create_data_product utcnow data st) = IntegrityError
      <-> taken (c_schema_name data) st /\ c_schema_name data = EmptyString)
  /\ (is_ok (fst (create_data_product utcnow data st)) = false ->
      rows (snd (create_data_product utcnow data st)) = rows st).
Proof.
  destruct (taken_dec (c_schema_name data) st) as [(q & Hq & Hn)|Hfree].
  - assert (Ht : taken (c_schema_name data) st) by (exists q; auto).
    destruct (create_taken utcnow data st q Hq Hn) as (Hv & Hi & Hr).
    destruct (string_dec (c_schema_name data) EmptyString) as [He|He].
    + specialize (Hi He). split; [|split; [|split]].
      * rewrite Hi. simpl. split; [discriminate|tauto].
      * split; [|tauto]. intros E. rewrite E in Hi. discriminate.
      * tauto.
      * intros _. exact Hr.
    + specialize (Hv He). split; [|split; [|split]].
      * rewrite Hv. simpl. split; [discriminate|tauto].
      * tauto.
      * rewrite Hv. simpl. split; [discriminate|tauto].
      * intros _. exact Hr.
  - destruct (create_fresh utcnow data st) as (p & st' & E).
    { intros q Hq Hn. apply Hfree. exists q. auto. }
    rewrite E. simpl. split; [|split; [|split]].
    + tauto.
    + split; [discriminate|tauto].
    + split; [discriminate|tauto].
    + discriminate.
Qed.

Lemma not_null_merged u p :
  not_null p = true ->
  (not_null (apply_updates u p) = true
   <-> u_schema_name u <> Provided None
       /\ u_owner u <> Provided None
       /\ u_creation_date u <> Provided None).
Proof.
  intros Hp. destruct (apply_updates_fields u p) as (F1 & _ & F3 & F4 & _).
  unfold not_null in *. rewrite F1, F3, F4.
  destruct (schema_name p); [|discriminate].
  destruct (owner p); [|discriminate].
  destruct (creation_date p); [|discriminate].
  destruct (u_schema_name u) as [|[?|]], (u_owner u) as [|[?|]],
    (u_creation_date u) as [|[?|]]; simpl;
    (split; [intros H; try discriminate; repeat split; discriminate
            |intros (H1 & H2 & H3); try reflexivity; congruence]).
Qed.

(** In a well-formed table the row of an id is the only row with it. *)
Lemma wf_same_id st p q i :
  wf st -> In p (rows st) -> In q (rows st) ->
  id p = Some i -> id q = Some i -> p = q.
Proof.
  intros Hwf Hp Hq Ep Eq.
  eapply NoDup_map_In_eq; [apply (wf_pk _ Hwf)| | |]; congruence.
Qed.

Lemma wf_same_name st p q n :
  wf st -> In p (rows st) -> In q (rows st) ->
  schema_name p = Some n -> schema_name q = Some n -> p = q.
Proof.
  intros Hwf Hp Hq Ep Eq.
  eapply NoDup_map_In_eq; [apply (wf_unique _ Hwf)| | |]; congruence.
Qed.

(** The unique index lets the merged row in exactly when no other row
    holds its name. *)
Lemma name_free_others st i u p :
  wf st -> session_get st i = Some p ->
  (name_free (filter (fun q => negb (id_is i q)) (rows st)) (apply_updates u p)
   = true
   <-> forall n, attr (u_schema_name u) = Some n -> ~ taken_by_other i n st).
Proof.
  intros Hwf Hget. destruct (session_get_Some _ _ _ Hget) as [Hin Hid].
  destruct (apply_updates_fields u p) as (F1 & _).
  rewrite name_free_true, F1. split.
  - intros Hfree n Hattr (q & Hq & Hqi & Hqn).
    apply Hfree. rewrite (attr_merged _ _ _ Hattr), <- Hqn.
    apply in_map, filter_In. split; [exact Hq|].
    destruct (id_is i q) eqn:E; [|reflexivity].
    apply id_is_true in E. contradiction.
  - intros Hno Hmem. apply in_map_iff in Hmem as (q & Hqn & Hq).
    apply filter_In in Hq as [Hq Hqi].
    assert (Hne : id q <> Some i).
    { intros E. apply id_is_true in E. rewrite E in Hqi. discriminate. }
    destruct (u_schema_name u) as [|[n|]] eqn:Eu; simpl in Hqn.
    + pose proof (wf_not_null _ Hwf q Hq) as Hnn. unfold not_null in Hnn.
      destruct (schema_name q) as [m|] eqn:Em; [|discriminate].
      assert (p = q) by (eapply wf_same_name; eauto).
      subst q. contradiction.
    + apply (Hno n eq_refl). exists q. auto.
    + pose proof (wf_not_null _ Hwf q Hq) as Hnn. unfold not_null in Hnn.
      rewrite Hqn in Hnn. discriminate.
Qed.

(** An update is committed when the name it moves to, if any, does not
    resolve, and the merged object passes the column constraints. *)
Lemma update_commits_renamed utcnow st i u p :
  session_get st i = Some p ->
  (forall n, renames u p = Some n ->
             get_data_product_by_schema_name n st = None) ->
  not_null (apply_updates u p) = true ->
  name_free (filter (fun q => negb (id_is i q)) (rows st)) (apply_updates u p)
  = true ->
  exists p' st', update_data_product utcnow (Some i) u st = (Ok (Some p'), st').
Proof.
  intros Hget Hren Hnn Hfree. unfold update_data_product. rewrite Hget.
  assert (Hskip :
    match renames u p with
    | Some n =>
        match get_data_product_by_schema_name n st with
        | Some _ => Some n
        | None => None
        end
    | None => None
    end = None).
  { destruct (renames u p) as [n|]; [|reflexivity]. now rewrite (Hren n). }
  rewrite Hskip. simpl. unfold commit_update. simpl.
  replace (not_null (set_updated_at (apply_updates u p) (utcnow (ticks st))))
    with true by (symmetry; exact Hnn).
  replace (name_free (filter (fun q => negb (id_is i q)) (rows st))
             (set_updated_at (apply_updates u p) (utcnow (ticks st))))
    with true by (symmetry; exact Hfree).
  simpl. eauto.
Qed.

(** X4: when an update of a stored row goes through.  In a well-formed
    store, [update_data_product] on a stored id returns the updated record
    exactly when the request puts [None] in none of [schema_name], [owner]
    and [creation_date], and the name it supplies, if any, is held by no
    other row; otherwise the rows are left as they were. *)
Theorem update_data_product_succeeds_iff
  (utcnow : nat -> datetime) (st : DB) (i : Z)
  (u : DataProductUpdate) (p : DataProduct) :
  wf st ->
  session_get st i = Some p ->
  ((exists p' st',
      update_data_product utcnow (Some i) u st = (Ok (Some p'), st'))
   <-> (u_schema_name u <> Provided None
        /\ u_owner u <> Provided None
        /\ u_creation_date u <> Provided None)
       /\ forall n, attr (u_schema_name u) = Some n ->
                    ~ taken_by_other i n st)
  /\ ((forall p', fst (update_data_product utcnow (Some i) u st)
                  <> Ok (Some p')) ->
      rows (snd (update_data_product utcnow (Some i) u st)) = rows st).
Proof.
  intros Hwf Hget. destruct (session_get_Some _ _ _ Hget) as [Hin Hid].
  pose proof (wf_not_null _ Hwf p Hin) as Hnn.
  split.
  - split.
    + intros (p' & st' & E).
      destruct (update_ok_inv _ _ _ _ _ _ _ Hget E) as (Hp' & _ & Hnn').
      destruct (update_cases utcnow (Some i) u st)
        as [[Hno _]|(j & q & q' & st'' & Hj & Hq & E' & Hq' & _ & Hfree)].
      { rewrite E in Hno. destruct (Hno p' eq_refl). }
      inversion Hj; subst j. rewrite Hget in Hq. inversion Hq; subst q.
      split.
      * apply (not_null_merged u p Hnn). rewrite Hp' in Hnn'. exact Hnn'.
      * apply (name_free_others st i u p Hwf Hget). rewrite Hq' in Hfree.
        exact Hfree.
    + intros [Hnull Hother].
      apply update_commits_renamed with (p := p); try assumption.
      * intros n Hren. unfold renames in Hren.
        destruct (attr (u_schema_name u)) as [m|] eqn:Ea; [|discriminate].
        destruct (opt_string_eqb (Some m) (schema_name p)) eqn:Eq;
          [discriminate|].
        inversion Hren; subst m.
        destruct (get_data_product_by_schema_name n st) as [r|] eqn:G;
          [|reflexivity].
        apply get_by_schema_name_Some in G as (Hr & Hrn & _).
        destruct (Hother n eq_refl). exists r. split; [exact Hr|].
        split; [|exact Hrn].
        intros Hri. assert (p = r) by (eapply wf_same_id; eauto).
        subst r. rewrite Hrn in Eq. simpl in Eq.
        rewrite String.eqb_refl in Eq. discriminate.
      * now apply not_null_merged.
      * now apply name_free_others.
  - intros Hno.
    destruct (update_cases utcnow (Some i) u st)
      as [[_ Hr]|(j & q & q' & st'' & _ & _ & E' & _)]; [exact Hr|].
    rewrite E' in Hno. destruct (Hno q' eq_refl).
Qed.

(** X5: the two lookups are exact.  In a well-formed store,
    [get_data_product_by_id] returns a record exactly when it is the stored
    row of that id, and [get_data_product_by_schema_name] exactly when the
    name is not empty and the record is the stored row whose [schema_name]
    equals it, letter case included. *)
Theorem lookups_are_exact (st : DB) :
  wf st ->
  (forall i r,
     get_data_product_by_id (Some i) st = Some r
     <-> In r (rows st) /\ id r = Some i)
  /\ (forall n r,
        get_data_product_by_schema_name n st = Some r
        <-> n <> EmptyString /\ In r (rows st) /\ schema_name r = Some n).
Proof.
  intros Hwf. split.
  - intros i r. simpl. split; [apply session_get_Some|].
    intros [Hr Hi].
    destruct (session_get st i) as [q|] eqn:E.
    + apply session_get_Some in E as [Hq Hqi]. f_equal.
      eapply wf_same_id; eauto.
    + rewrite session_get_None in E. destruct (E r Hr Hi).
  - intros n r. split.
    + intros H. apply get_by_schema_name_Some in H. tauto.
    + intros (Hn & Hr & Hrn).
      destruct (get_by_schema_name_found n st r Hn Hr Hrn) as (q & E).
      rewrite E. apply get_by_schema_name_Some in E as (Hq & Hqn & _).
      f_equal. eapply wf_same_name; eauto.
Qed.

(** X6: a record created under a name that is not empty is found again
    by that name, and what any other name resolves to is not changed by
    the creation. *)
Theorem create_then_find_by_schema_name
  (utcnow : nat -> datetime) (data : DataProductCreate) (st st' : DB)
  (p : DataProduct) :
  create_data_product utcnow data st = (Ok p, st') ->
  (c_schema_name data <> EmptyString ->
   get_data_product_by_schema_name (c_schema_name data) st' = Some p)
  /\ (forall n, n <> c_schema_name data ->
        get_data_product_by_schema_name n st'
        = get_data_product_by_schema_name n st).
Proof.
  intros E. apply create_ok_inv in E as (Hnone & Hp & Hst & Hfree).
  assert (Hn : schema_name p = Some (c_schema_name data)) by now subst p.
  apply name_free_true in Hfree. rewrite Hn in Hfree.
  unfold get_data_product_by_schema_name. rewrite Hst. simpl. split.
  - intros Hne. apply String.eqb_neq in Hne. rewrite Hne, find_app.
    destruct (find (name_is (c_schema_name data)) (rows st)) as [q|] eqn:F.
    + apply find_some in F as [Hq F]. apply name_is_true in F.
      destruct Hfree. rewrite <- F. now apply in_map.
    + simpl. apply name_is_true in Hn. now rewrite Hn.
  - intros n Hne. destruct (String.eqb n EmptyString); [reflexivity|].
    rewrite find_app. destruct (find (name_is n) (rows st)); [reflexivity|].
    simpl. destruct (name_is n p) eqn:F; [|reflexivity].
    apply name_is_true in F. congruence.
Qed.

(** ** The life of a record *)

Lemma session_get_rows st st' i :
  rows st' = rows st -> session_get st' i = session_get st i.
Proof. unfold session_get. now intros ->. Qed.

(** What one call does to the row of an id, unless it deletes it: the row
    stays as it is, or it is the row an update of that id has written. *)
Lemma exec_lookup utcnow c st i p :
  session_get st i = Some p ->
  c <> Delete (Some i) ->
  session_get (exec utcnow c st) i = Some p
  \/ exists u,
       c = Update (Some i) u
       /\ session_get (exec utcnow c st) i
          = Some (set_updated_at (apply_updates u p) (utcnow (ticks st))).
Proof.
  intros Hget Hc. destruct c as [data|oid u|oid]; simpl.
  - left. destruct (create_cases utcnow data st)
      as [[_ Hr]|(q & st' & E & Hr & _)].
    + now rewrite (session_get_rows _ _ _ Hr).
    + rewrite E. simpl. unfold session_get in *. now rewrite Hr, find_app, Hget.
  - destruct (update_cases utcnow oid u st)
      as [[_ Hr]|(j & q & q' & st' & Hj & Hq & E & Hq' & Hr & _)].
    + left. now rewrite (session_get_rows _ _ _ Hr).
    + rewrite E. simpl. unfold session_get in *. rewrite Hr.
      assert (Hid : id q' = Some j).
      { rewrite Hq'. simpl. rewrite apply_updates_id.
        apply find_some in Hq as [_ Hq]. now apply id_is_true. }
      destruct (Z.eq_dec i j) as [->|Hne].
      * right. exists u. split; [now subst oid|].
        rewrite (find_replaced_same j q' _ q Hid Hq).
        rewrite Hget in Hq. inversion Hq. now subst.
      * left. now rewrite find_replaced_other.
  - left. unfold delete_data_product.
    destruct oid as [j|]; [|exact Hget].
    destruct (session_get st j) as [q|]; [|exact Hget].
    simpl. unfold session_get, commit_delete. simpl.
    rewrite find_filter_other; [exact Hget|congruence].
Qed.

Lemma reachable_run utcnow cs st :
  reachable utcnow st -> reachable utcnow (run utcnow cs st).
Proof.
  revert st. induction cs as [|c cs IH]; intros st Hr; [exact Hr|].
  simpl. apply IH. now apply reach_step.
Qed.

(** X7: a record keeps its id and its [created_at] for as long as it is
    not deleted: after any sequence of calls that does not delete the id,
    the id still resolves, to a record with the same [created_at]. *)
Theorem created_at_never_changes
  (utcnow : nat -> datetime) (cs : list call) (st : DB) (i : Z)
  (p : DataProduct) :
  session_get st i = Some p ->
  ~ In (Delete (Some i)) cs ->
  exists p',
    get_data_product_by_id (Some i) (run utcnow cs st) = Some p'
    /\ id p' = id p
    /\ created_at p' = created_at p.
Proof.
  revert st p. induction cs as [|c cs IH]; intros st p Hget Hcs.
  - exists p. auto.
  - simpl. assert (Hc : c <> Delete (Some i)) by (intros ->; apply Hcs; now left).
    assert (Hcs' : ~ In (Delete (Some i)) cs) by (intros H; apply Hcs; now right).
    destruct (exec_lookup utcnow c st i p Hget Hc) as [H|(u & _ & H)].
    + exact (IH _ _ H Hcs').
    + destruct (IH _ _ H Hcs') as (p' & Hp' & Hid & Hca).
      exists p'. split; [exact Hp'|]. simpl in *.
      destruct (apply_updates_fields u p) as (_ & _ & _ & _ & F).
      rewrite apply_updates_id in Hid. split; congruence.
Qed.

(** X8: with a clock that never runs backwards, the [updated_at] of a
    record never decreases: in a reachable store, after any sequence of
    calls that does not delete the id, the record found has an [updated_at]
    at least as late as before. *)
Theorem updated_at_never_decreases
  (utcnow : nat -> datetime) (cs : list call) (st : DB) (i : Z)
  (p : DataProduct) :
  monotone utcnow ->
  reachable utcnow st ->
  session_get st i = Some p ->
  ~ In (Delete (Some i)) cs ->
  exists p',
    get_data_product_by_id (Some i) (run utcnow cs st) = Some p'
    /\ updated_at p <= updated_at p'.
Proof.
  intros Hmono. revert st p.
  induction cs as [|c cs IH]; intros st p Hr Hget Hcs.
  - exists p. split; [exact Hget|lia].
  - simpl. assert (Hc : c <> Delete (Some i)) by (intros ->; apply Hcs; now left).
    assert (Hcs' : ~ In (Delete (Some i)) cs) by (intros H; apply Hcs; now right).
    pose proof (reach_step utcnow c st Hr) as Hr'.
    destruct (exec_lookup utcnow c st i p Hget Hc) as [H|(u & _ & H)].
    + exact (IH _ _ Hr' H Hcs').
    + destruct (IH _ _ Hr' H Hcs') as (p' & Hp' & Hle).
      exists p'. split; [exact Hp'|]. simpl in Hle.
      apply session_get_Some in Hget as [Hin _].
      destruct (reachable_stamped _ _ Hr p Hin) as (k & Hk & E).
      rewrite E. eapply Z.le_trans; [|exact Hle]. apply Hmono. lia.
Qed.

Lemma replaced_In_new i p p' l :
  In p l -> id p = Some i -> In p' (replaced i p' l).
Proof.
  intros Hin Hid. unfold replaced. apply in_map_iff. exists p.
  apply id_is_true in Hid. now rewrite Hid.
Qed.

(** X9: a rename moves the name.  After a successful update that
    supplies a non-empty [schema_name], that name resolves to the updated
    record, and the name the record had before, when different, resolves
    to nothing. *)
Theorem rename_moves_the_name
  (utcnow : nat -> datetime) (st st' : DB) (i : Z)
  (u : DataProductUpdate) (p p' : DataProduct) (n : string) :
  wf st ->
  session_get st i = Some p ->
  update_data_product utcnow (Some i) u st = (Ok (Some p'), st') ->
  attr (u_schema_name u) = Some n ->
  n <> EmptyString ->
  get_data_product_by_schema_name n st' = Some p'
  /\ forall m, schema_name p = Some m -> m <> n ->
       get_data_product_by_schema_name m st' = None.
Proof.
  intros Hwf Hget E Hattr Hn.
  assert (Hwf' : wf st').
  { pose proof (wf_update utcnow (Some i) u st Hwf) as W. now rewrite E in W. }
  destruct (update_ok_inv _ _ _ _ _ _ _ Hget E) as (Hp' & Hst' & _).
  destruct (session_get_Some _ _ _ Hget) as [Hin Hid].
  assert (Hrows : rows st' = replaced i p' (rows st)) by now subst st'.
  assert (Hname : schema_name p' = Some n).
  { rewrite Hp'. simpl. destruct (apply_updates_fields u p) as (-> & _).
    now apply attr_merged. }
  assert (Hin' : In p' (rows st')).
  { rewrite Hrows. eapply replaced_In_new; eauto. }
  split.
  - destruct (get_by_schema_name_found n st' p' Hn Hin' Hname) as (q & G).
    rewrite G. apply get_by_schema_name_Some in G as (Hq & Hqn & _).
    f_equal. exact (wf_same_name st' q p' n Hwf' Hq Hin' Hqn Hname).
  - intros m Hm Hne. apply get_by_schema_name_None. intros q Hq Hqm.
    rewrite Hrows in Hq. apply replaced_In in Hq as [[-> _]|[Hq Hqi]].
    + congruence.
    + assert (p = q) by exact (wf_same_name st p q m Hwf Hin Hq Hm Hqm).
      subst q. apply id_is_true in Hid. congruence.
Qed.

(** X10: deleting a record frees its name: once the row is deleted, a
    creation under the name it had is accepted. *)
Theorem delete_frees_schema_name
  (utcnow : nat -> datetime) (st : DB) (i : Z) (p : DataProduct)
  (data : DataProductCreate) :
  wf st ->
  session_get st i = Some p ->
  schema_name p = Some (c_schema_name data) ->
  fst (delete_data_product (Some i) st) = true
  /\ exists r st',
       create_data_product utcnow data (snd (delete_data_product (Some i) st))
       = (Ok r, st').
Proof.
  intros Hwf Hget Hname. unfold delete_data_product. rewrite Hget. simpl.
  split; [reflexivity|]. apply create_fresh.
  intros q Hq Hqn. simpl in Hq. apply filter_In in Hq as [Hq Hqi].
  destruct (session_get_Some _ _ _ Hget) as [Hin Hid].
  assert (p = q) by (eapply wf_same_name; eauto). subst q.
  apply id_is_true in Hid. rewrite Hid in Hqi. discriminate.
Qed.

(** X11: deleting twice.  Whatever the first [delete_data_product]
    returned, a second one for the same id returns [False] and changes
    nothing. *)
Theorem delete_data_product_twice (oid : option Z) (st : DB) :
  delete_data_product oid (snd (delete_data_product oid st))
  = (false, snd (delete_data_product oid st)).
Proof.
  unfold delete_data_product at 2 3. destruct oid as [i|]; [|reflexivity].
  destruct (session_get st i) as [p|] eqn:E; simpl.
  - unfold delete_data_product, session_get, commit_delete. simpl.
    now rewrite find_filter_out.
  - unfold delete_data_product. now rewrite E.
Qed.

(** X12: what a reachable store holds.  Every stored row has an id, a
    [schema_name], an [owner] and a [creation_date]; no two rows share an
    id; and each row is what its own id resolves to. *)
Theorem reachable_rows_complete (utcnow : nat -> datetime) (st : DB) :
  reachable utcnow st ->
  NoDup (map id (rows st))
  /\ forall p, In p (rows st) ->
       (exists i n o d,
          id p = Some i /\ schema_name p = Some n
          /\ owner p = Some o /\ creation_date p = Some d)
       /\ get_data_product_by_id (id p) st = Some p.
Proof.
  intros Hr. pose proof (reachable_wf _ _ Hr) as Hwf.
  split; [apply (wf_pk _ Hwf)|]. intros p Hp.
  destruct (wf_ids _ Hwf p Hp) as (i & Hi & _).
  pose proof (wf_not_null _ Hwf p Hp) as Hnn. unfold not_null in Hnn.
  split.
  - destruct (schema_name p) as [n|]; [|discriminate].
    destruct (owner p) as [o|]; [|discriminate].
    destruct (creation_date p) as [d|]; [|discriminate].
    now exists i, n, o, d.
  - rewrite Hi. simpl. destruct (session_get st i) as [q|] eqn:E.
    + apply session_get_Some in E as [Hq Hqi]. f_equal.
      eapply wf_same_id; eauto.
    + rewrite session_get_None in E. destruct (E p Hp Hi).
Qed.

(** * The sample data *)

(** Rows stored oldest first are listed in the reverse of their table
    order. *)
Lemma order_by_oldest_first l :
  StronglySorted (fun a b => newer_or_same a b = false) l ->
  order_by_creation_date_desc l = rev l.
Proof.
  induction 1 as [|p l Hs IH Hp]; [reflexivity|].
  simpl. rewrite IH. clear IH Hs.
  assert (Hrev : Forall (fun q => newer_or_same p q = false) (rev l)).
  { apply Forall_forall. intros q Hq. apply in_rev in Hq.
    rewrite Forall_forall in Hp. now apply Hp. }
  clear Hp. induction (rev l) as [|q r IH]; [reflexivity|].
  simpl. inversion Hrev; subst.
  match goal with H : newer_or_same p q = false |- _ => rewrite H end.
  f_equal. now apply IH.
Qed.

(** X13: seeding an empty table stores the six samples, whatever the
    clock reads and wherever the id sequence stands: the rows carry the
    names, descriptions and owners of [sample_data] in its order, and the
    creation date of each is the clock reading taken for it less its age
    in days. *)
Theorem seed_sample_data_on_empty (utcnow : nat -> datetime) (st : DB) :
  rows st = [] ->
  map (fun p => (schema_name p, description p, owner p))
      (rows (seed_sample_data utcnow st))
  = map (fun e => match e with
                  | (n, d, o, _) => (Some n, Some d, Some o)
                  end) sample_entries
  /\ map creation_date (rows (seed_sample_data utcnow st))
     = [ Some (utcnow (0 + ticks st)%nat - days 30);
         Some (utcnow (1 + ticks st)%nat - days 25);
         Some (utcnow (2 + ticks st)%nat - days 20);
         Some (utcnow (3 + ticks st)%nat - days 15);
         Some (utcnow (4 + ticks st)%nat - days 10);
         Some (utcnow (5 + ticks st)%nat - days 5) ]
  /\ get_data_products_count (seed_sample_data utcnow st) = 6%nat.
Proof.
  destruct st as [r n t]. simpl. intros ->.
  cbv -[Z.sub Z.add days]. repeat split.
Qed.

Lemma seed_rows_nonempty utcnow st :
  rows (seed_sample_data utcnow st) = [] -> False.
Proof.
  destruct st as [[|q r] n t].
  - cbv -[Z.sub Z.add days]. discriminate.
  - unfold seed_sample_data, get_data_products_count. simpl. discriminate.
Qed.

Lemma seed_skips utcnow st :
  rows st <> [] -> seed_sample_data utcnow st = st.
Proof.
  intros H. unfold seed_sample_data, get_data_products_count.
  destruct (rows st); [now destruct H|reflexivity].
Qed.

(** X14: seeding is skipped when the table has a row, leaving the store
    exactly as it was, so seeding twice is seeding once. *)
Theorem seed_sample_data_idempotent (utcnow : nat -> datetime) (st : DB) :
  (rows st <> [] -> seed_sample_data utcnow st = st)
  /\ seed_sample_data utcnow (seed_sample_data utcnow st)
     = seed_sample_data utcnow st.
Proof.
  split; [apply seed_skips|].
  apply seed_skips. intros H. exact (seed_rows_nonempty utcnow st H).
Qed.

(** X15: with a clock that never runs backwards, the listing of a freshly
    seeded table shows the samples from the most recent to the oldest,
    the reverse of the order they are written in. *)
Theorem seed_sample_data_listing (utcnow : nat -> datetime) (st : DB) :
  monotone utcnow ->
  rows st = [] ->
  map schema_name (get_all_data_products (seed_sample_data utcnow st))
  = map (fun e => match e with
                  | (n, _, _, _) => Some n
                  end) (rev sample_entries).
Proof.
  intros Hmono. destruct st as [r n t]. simpl. intros ->.
  unfold get_all_data_products.
  assert (H1 := Hmono t (S t) (Nat.le_succ_diag_r _)).
  assert (H2 := Hmono (S t) (S (S t)) (Nat.le_succ_diag_r _)).
  assert (H3 := Hmono (S (S t)) (S (S (S t))) (Nat.le_succ_diag_r _)).
  assert (H4 := Hmono (S (S (S t))) (S (S (S (S t)))) (Nat.le_succ_diag_r _)).
  assert (H5 := Hmono (S (S (S (S t)))) (S (S (S (S (S t)))))
                  (Nat.le_succ_diag_r _)).
  rewrite order_by_oldest_first.
  - cbv -[Z.sub Z.add days]. reflexivity.
  - cbv -[Z.sub Z.add days Z.leb].
    repeat match goal with
           | |- StronglySorted _ _ => constructor
           | |- Forall _ _ => constructor
           | |- Z.leb _ _ = false => apply Z.leb_gt; unfold days; lia
           end.
Qed.

(** * The dialogs *)

(** ** The counters *)

Lemma recent_count_spec utcnow l st :
  (fst (recent_count utcnow l st) <= List.length l)%nat
  /\ rows (snd (recent_count utcnow l st)) = rows st
  /\ next_id (snd (recent_count utcnow l st)) = next_id st
  /\ (ticks st <= ticks (snd (recent_count utcnow l st))
      <= ticks st + List.length l)%nat.
Proof.
  revert st. induction l as [|dp l IH]; intros st; simpl.
  - repeat split; lia.
  - destruct (creation_date dp) as [d|].
    + specialize (IH (snd (read_clock utcnow st))).
      unfold read_clock in *. simpl in *.
      destruct (recent_count utcnow l _) as [n st2]. simpl in *.
      destruct IH as (H1 & H2 & H3 & H4).
      destruct (Z.ltb _ d); simpl; repeat split; try assumption; lia.
    + destruct (IH st) as (H1 & H2 & H3 & H4). repeat split; try assumption; lia.
Qed.

Lemma refresh_table_rows utcnow st :
  rows (snd (refresh_table utcnow st)) = rows st.
Proof.
  unfold refresh_table.
  pose proof (recent_count_spec utcnow (get_all_data_products st) st)
    as (_ & H & _).
  now destruct (recent_count utcnow (get_all_data_products st) st).
Qed.

Lemma nodup_length {A} (dec : forall a b : A, {a = b} + {a <> b}) l :
  (List.length (nodup dec l) <= List.length l)%nat.
Proof.
  induction l as [|a l IH]; simpl; [lia|].
  destruct (in_dec dec a l); simpl; lia.
Qed.

Lemma nodup_nonempty {A} (dec : forall a b : A, {a = b} + {a <> b}) l :
  l <> [] -> (1 <= List.length (nodup dec l))%nat.
Proof.
  induction l as [|a l IH]; [congruence|]. intros _. simpl.
  destruct (in_dec dec a l) as [Hin|]; simpl; [|lia].
  apply IH. intros ->. destruct Hin.
Qed.

(** X16: the three counters of the page.  The total is the count of the
    service; the recent and the unique-owner counters never exceed it; a
    table with a row has at least one owner; and refreshing changes no
    row, only reads the clock, at most once per record. *)
Theorem refresh_table_counters (utcnow : nat -> datetime) (st : DB) :
  total (fst (refresh_table utcnow st)) = get_data_products_count st
  /\ (recent (fst (refresh_table utcnow st))
      <= total (fst (refresh_table utcnow st)))%nat
  /\ (unique_owners (fst (refresh_table utcnow st))
      <= total (fst (refresh_table utcnow st)))%nat
  /\ (rows st <> [] ->
      (1 <= unique_owners (fst (refresh_table utcnow st)))%nat)
  /\ rows (snd (refresh_table utcnow st)) = rows st
  /\ (ticks st <= ticks (snd (refresh_table utcnow st))
      <= ticks st + get_data_products_count st)%nat.
Proof.
  pose proof (listing_length st) as Hlen.
  unfold refresh_table.
  pose proof (recent_count_spec utcnow (get_all_data_products st) st)
    as (H1 & H2 & _ & H4).
  destruct (recent_count utcnow (get_all_data_products st) st) as [r st1].
  simpl in *. rewrite <- Hlen.
  split; [reflexivity|]. split; [exact H1|].
  split; [rewrite <- (length_map owner); apply nodup_length|].
  split; [|split; assumption].
  intros Hne. apply nodup_nonempty. intros E.
  apply map_eq_nil in E. apply Hne.
  apply Permutation_nil. rewrite <- E. exact (order_by_perm (rows st)).
Qed.

(** ** The handlers *)

Lemma missing_true strip v : missing strip v = true <-> blank_input strip v.
Proof.
  unfold missing, blank_input. destruct v as [s|].
  - rewrite orb_true_iff, !String.eqb_eq. split.
    + intros H. right. now exists s.
    + intros [H|(x & E & H)]; [discriminate|]. now inversion E.
  - split; [now left|reflexivity].
Qed.

Lemma missing_false strip v :
  missing strip v = false ->
  exists s, v = Some s /\ s <> EmptyString /\ stripped strip v <> EmptyString.
Proof.
  unfold missing. destruct v as [s|]; [|discriminate].
  intros H. apply orb_false_iff in H as [H1 H2].
  apply String.eqb_neq in H1. apply String.eqb_neq in H2.
  exists s. auto.
Qed.

Lemma create_failed_rows utcnow data st :
  is_ok (fst (create_data_product utcnow data st)) = false ->
  rows (snd (create_data_product utcnow data st)) = rows st.
Proof.
  intros H. destruct (create_cases utcnow data st)
    as [[_ Hr]|(p & st' & E & _)]; [exact Hr|].
  rewrite E in H. discriminate.
Qed.

Lemma update_failed_rows utcnow oid u st :
  (forall p', fst (update_data_product utcnow oid u st) <> Ok (Some p')) ->
  rows (snd (update_data_product utcnow oid u st)) = rows st.
Proof.
  intros H. destruct (update_cases utcnow oid u st)
    as [[_ Hr]|(i & p & p' & st' & _ & _ & E & _)]; [exact Hr|].
  rewrite E in H. destruct (H p' eq_refl).
Qed.

Lemma submit_new_notice utcnow fromisoformat strip sn d o dv st :
  asks_for_input (fst (submit_new utcnow fromisoformat strip sn d o dv st))
  = false.
Proof.
  unfold submit_new.
  destruct (parse_creation_date fromisoformat dv); [|reflexivity].
  destruct (new_DataProductCreate _ _ _ _); [|reflexivity].
  now destruct (create_data_product utcnow _ st) as [[?|?|] ?].
Qed.

Lemma submit_changes_notice utcnow fromisoformat strip i sn d o dv st :
  asks_for_input
    (fst (submit_changes utcnow fromisoformat strip i sn d o dv st))
  = false.
Proof.
  unfold submit_changes.
  destruct (parse_creation_date fromisoformat dv); [|reflexivity].
  destruct (new_DataProductUpdate _ _ _ _); [|reflexivity].
  now destruct (update_data_product utcnow _ _ st) as [[[?|]|?|] ?].
Qed.

(** X17: both dialogs ask for a schema name and an owner before anything
    else.  Whatever [str.strip()] removes, the notice is
    [Schema_name_required] exactly when the schema name input is [None],
    empty, or empty once stripped, and [Owner_required] exactly when the
    schema name is there and the owner is not; in both cases the store is
    not touched. *)
Theorem dialogs_require_schema_name_and_owner
  (utcnow : nat -> datetime) (fromisoformat : string -> option datetime)
  (strip : string -> string)
  (i : Z) (sn d o : text_value) (dv : date_value) (st : DB) :
  let add := save_new_data_product utcnow fromisoformat strip sn d o dv st in
  let edit :=
    save_data_product_changes utcnow fromisoformat strip i sn d o dv st in
  (fst add = Schema_name_required <-> blank_input strip sn)
  /\ (fst edit = Schema_name_required <-> blank_input strip sn)
  /\ (fst add = Owner_required
      <-> ~ blank_input strip sn /\ blank_input strip o)
  /\ (fst edit = Owner_required
      <-> ~ blank_input strip sn /\ blank_input strip o)
  /\ (blank_input strip sn \/ blank_input strip o ->
      snd add = st /\ snd edit = st).
Proof.
  simpl. unfold save_new_data_product, save_data_product_changes.
  rewrite <- !missing_true.
  pose proof (submit_new_notice utcnow fromisoformat strip sn d o dv st) as A.
  pose proof (submit_changes_notice utcnow fromisoformat strip i sn d o dv st)
    as B.
  destruct (missing strip sn) eqn:Msn; simpl.
  { repeat split; try discriminate; try tauto; intros [? ?]; congruence. }
  destruct (missing strip o) eqn:Mo; simpl.
  { repeat split; try discriminate; try tauto; intros [? ?]; congruence. }
  split; [split; [intros E; rewrite E in A|]; discriminate|].
  split; [split; [intros E; rewrite E in B|]; discriminate|].
  split; [split; [intros E; rewrite E in A; discriminate
                 |intros [_ ?]; discriminate]|].
  split; [split; [intros E; rewrite E in B; discriminate
                 |intros [_ ?]; discriminate]|].
  intros [?|?]; discriminate.
Qed.

Lemma dialogs_change_rows_aux utcnow fromisoformat strip i sn d o dv st :
  reports_success
    (fst (save_data_product_changes utcnow fromisoformat strip i sn d o dv st))
  = false ->
  rows (snd (save_data_product_changes utcnow fromisoformat strip i sn d o dv
               st))
  = rows st.
Proof.
  unfold save_data_product_changes, submit_changes.
  destruct (missing strip sn); [reflexivity|].
  destruct (missing strip o); [reflexivity|].
  destruct (parse_creation_date fromisoformat dv); [|reflexivity].
  destruct (new_DataProductUpdate _ _ _ _) as [u|]; [|reflexivity].
  pose proof (update_failed_rows utcnow (Some i) u st) as H.
  destruct (update_data_product utcnow (Some i) u st) as [[[?|]|?|] ?];
    simpl in *; [discriminate|intros _; apply H; discriminate..].
Qed.

(** X18: a dialog changes the table only when it reports success: after
    any other notice of the add dialog, the edit dialog or the delete
    dialog, the rows are as they were. *)
Theorem dialogs_change_rows_only_on_success
  (utcnow : nat -> datetime) (fromisoformat : string -> option datetime)
  (strip : string -> string)
  (i : Z) (sn d o : text_value) (dv : date_value) (st : DB) :
  (reports_success
     (fst (save_new_data_product utcnow fromisoformat strip sn d o dv st))
   = false ->
   rows (snd (save_new_data_product utcnow fromisoformat strip sn d o dv st))
   = rows st)
  /\ (reports_success
        (fst (save_data_product_changes utcnow fromisoformat strip i sn d o dv
                st))
      = false ->
      rows (snd (save_data_product_changes utcnow fromisoformat strip i sn d o
                   dv st))
      = rows st)
  /\ (reports_success (fst (confirm_delete utcnow i st)) = false ->
      rows (snd (confirm_delete utcnow i st)) = rows st).
Proof.
  split; [|split].
  - unfold save_new_data_product, submit_new.
    destruct (missing strip sn); [reflexivity|].
    destruct (missing strip o); [reflexivity|].
    destruct (parse_creation_date fromisoformat dv); [|reflexivity].
    destruct (new_DataProductCreate _ _ _ _) as [data|]; [|reflexivity].
    pose proof (create_failed_rows utcnow data st) as H.
    destruct (create_data_product utcnow data st) as [[?|?|] ?]; simpl in *;
      [discriminate|intros _; now apply H..].
  - apply dialogs_change_rows_aux.
  - unfold confirm_delete.
    unfold delete_data_product.
    destruct (session_get st i); simpl; [discriminate|reflexivity].
Qed.

Lemma new_DataProductCreate_fields sn d o cd data :
  new_DataProductCreate sn d o cd = Some data ->
  data = mkCreate sn d o cd
  /\ (str_len sn <= 255)%nat /\ (str_len o <= 255)%nat.
Proof.
  unfold new_DataProductCreate, within.
  destruct (Nat.leb (str_len sn) 255) eqn:E1; [|discriminate].
  destruct (opt_within 1000 d); [|discriminate].
  destruct (Nat.leb (str_len o) 255) eqn:E2; [|discriminate].
  simpl. intros H. inversion H.
  apply Nat.leb_le in E1. apply Nat.leb_le in E2. auto.
Qed.

(** X19: what the add dialog stores.  When it reports [Created], the
    table has gained exactly one row, whose [schema_name] and [owner] are
    what [str.strip()] makes of the inputs, neither of them empty and
    neither longer than 255 characters, and whose [description] is the
    stripped input, or [None] when that input is empty.  So no row with an
    empty name comes from the dialog. *)
Theorem save_new_data_product_stores_stripped
  (utcnow : nat -> datetime) (fromisoformat : string -> option datetime)
  (strip : string -> string)
  (sn d o raw : text_value) (dv : date_value) (st st' : DB) :
  save_new_data_product utcnow fromisoformat strip sn d o dv st
  = (Created raw, st') ->
  raw = sn
  /\ exists s w p,
       sn = Some s /\ o = Some w
       /\ rows st' = rows st ++ [p]
       /\ schema_name p = Some (strip s)
       /\ owner p = Some (strip w)
       /\ description p = stripped_or_none strip d
       /\ strip s <> EmptyString /\ strip w <> EmptyString
       /\ (str_len (strip s) <= 255)%nat
       /\ (str_len (strip w) <= 255)%nat.
Proof.
  unfold save_new_data_product, submit_new.
  destruct (missing strip sn) eqn:Msn; [discriminate|].
  destruct (missing strip o) eqn:Mo; [discriminate|].
  destruct (parse_creation_date fromisoformat dv) as [cd|]; [|discriminate].
  destruct (new_DataProductCreate _ _ _ _) as [data|] eqn:N; [|discriminate].
  destruct (create_data_product utcnow data st) as [[p|?|] st1] eqn:E;
    try discriminate.
  intros H. inversion H; subst. split; [reflexivity|].
  apply new_DataProductCreate_fields in N as (-> & L1 & L2).
  apply create_ok_inv in E as (_ & Hp & Hst & _). simpl in *.
  destruct (missing_false _ _ Msn) as (s & -> & _ & T1).
  destruct (missing_false _ _ Mo) as (w & -> & _ & T2).
  simpl in *. exists s, w, p. rewrite refresh_table_rows, Hst. simpl.
  do 3 (split; [reflexivity|]). rewrite Hp. simpl.
  do 3 (split; [reflexivity|]). auto.
Qed.

(** X20: the add dialog and a name that is taken.  When the inputs pass
    the checks and the stripped schema name is already stored, the notice
    is the rejection that names it and the store is untouched: what
    [str.strip()] removes around a stored name does not get it past the
    uniqueness rule. *)
Theorem save_new_data_product_duplicate
  (utcnow : nat -> datetime) (fromisoformat : string -> option datetime)
  (strip : string -> string)
  (sn d o : text_value) (dv : date_value) (st : DB)
  (cd : option datetime) (data : DataProductCreate) :
  missing strip sn = false ->
  missing strip o = false ->
  parse_creation_date fromisoformat dv = Some cd ->
  new_DataProductCreate (stripped strip sn) (stripped_or_none strip d)
    (stripped strip o) cd
  = Some data ->
  taken (stripped strip sn) st ->
  save_new_data_product utcnow fromisoformat strip sn d o dv st
  = (Rejected (Name_exists (stripped strip sn)), st).
Proof.
  intros Msn Mo Hcd Hdata (q & Hq & Hn).
  unfold save_new_data_product, submit_new. rewrite Msn, Mo, Hcd, Hdata.
  apply new_DataProductCreate_fields in Hdata as (-> & _).
  destruct (missing_false _ _ Msn) as (_ & _ & _ & Hne).
  destruct (create_taken utcnow
              (mkCreate (stripped strip sn) (stripped_or_none strip d)
                        (stripped strip o) cd)
              st q Hq Hn) as (Hv & _).
  simpl in Hv. now rewrite (Hv Hne).
Qed.

Lemma new_DataProductUpdate_fields sn d o cd u :
  new_DataProductUpdate sn d o cd = Some u ->
  u = mkUpdate (Provided sn) (Provided d) (Provided o) (Provided cd).
Proof.
  unfold new_DataProductUpdate.
  destruct (opt_within 255 sn && opt_within 1000 d && opt_within 255 o);
    [|discriminate].
  intros H. now inversion H.
Qed.

(** X21: the edit dialog with the date cleared.  The request the dialog
    builds always sets [creation_date], to [None] when the date input is
    empty; the column refuses that, so with an empty date input the dialog
    never reports [Updated] and the rows stay as they were, whatever the
    other inputs are. *)
Theorem save_data_product_changes_without_date
  (utcnow : nat -> datetime) (fromisoformat : string -> option datetime)
  (strip : string -> string)
  (i : Z) (sn d o : text_value) (dv : date_value) (st : DB) :
  dv = No_value \/ dv = Iso EmptyString ->
  (forall raw,
     fst (save_data_product_changes utcnow fromisoformat strip i sn d o dv st)
     <> Updated raw)
  /\ rows (snd (save_data_product_changes utcnow fromisoformat strip i sn d o
                  dv st))
     = rows st.
Proof.
  intros Hdv.
  assert (Hparse : parse_creation_date fromisoformat dv = Some None)
    by (destruct Hdv as [->| ->]; reflexivity).
  unfold save_data_product_changes, submit_changes.
  destruct (missing strip sn); [split; [discriminate|reflexivity]|].
  destruct (missing strip o); [split; [discriminate|reflexivity]|].
  rewrite Hparse.
  destruct (new_DataProductUpdate _ _ _ _) as [u|] eqn:N;
    [|split; [discriminate|reflexivity]].
  apply new_DataProductUpdate_fields in N.
  pose proof (update_failed_rows utcnow (Some i) u st) as Hrows.
  destruct (update_data_product utcnow (Some i) u st) as [[[p'|]|?|] st1]
    eqn:E; cbn [fst snd] in *;
    try (split; [discriminate|apply Hrows; discriminate]).
  exfalso.
  destruct (update_cases utcnow (Some i) u st)
    as [[H _]|(j & p & q' & st2 & Hj & Hget & E' & _)].
  - rewrite E in H. now destruct (H p').
  - inversion Hj; subst j.
    destruct (update_ok_inv _ _ _ _ _ _ _ Hget E) as (Hp' & _ & Hnn).
    assert (G : creation_date (apply_updates u p) = None).
    { destruct (apply_updates_fields u p) as (_ & _ & _ & F & _).
      rewrite F, N. reflexivity. }
    rewrite Hp' in Hnn. unfold not_null in Hnn.
    cbn [schema_name owner creation_date set_updated_at] in Hnn.
    rewrite G in Hnn.
    destruct (schema_name (apply_updates u p)); [|discriminate].
    destruct (owner (apply_updates u p)); discriminate.
Qed.

(** X22: what the edit dialog stores.  When it reports [Updated], the row
    of the id carries all four inputs: what [str.strip()] makes of the
    schema name and of the owner, neither empty, the stripped description,
    or [None] when that input is empty (an emptied description is erased,
    not kept), and the date parsed from the date input; its id and
    [created_at] are as before. *)
Theorem save_data_product_changes_stores_inputs
  (utcnow : nat -> datetime) (fromisoformat : string -> option datetime)
  (strip : string -> string)
  (i : Z) (sn d o raw : text_value) (dv : date_value) (st st' : DB)
  (p : DataProduct) :
  session_get st i = Some p ->
  save_data_product_changes utcnow fromisoformat strip i sn d o dv st
  = (Updated raw, st') ->
  exists s w cd p',
    sn = Some s /\ o = Some w
    /\ parse_creation_date fromisoformat dv = Some (Some cd)
    /\ get_data_product_by_id (Some i) st' = Some p'
    /\ schema_name p' = Some (strip s)
    /\ description p' = stripped_or_none strip d
    /\ owner p' = Some (strip w)
    /\ creation_date p' = Some cd
    /\ id p' = id p
    /\ created_at p' = created_at p
    /\ strip s <> EmptyString /\ strip w <> EmptyString.
Proof.
  intros Hget. unfold save_data_product_changes, submit_changes.
  destruct (missing strip sn) eqn:Msn; [discriminate|].
  destruct (missing strip o) eqn:Mo; [discriminate|].
  destruct (parse_creation_date fromisoformat dv) as [cd0|]; [|discriminate].
  destruct (new_DataProductUpdate _ _ _ _) as [u|] eqn:N; [|discriminate].
  apply new_DataProductUpdate_fields in N.
  destruct (update_data_product utcnow (Some i) u st) as [[[p'|]|?|] st1]
    eqn:E; try discriminate.
  intros H. inversion H; subst raw st'. clear H.
  destruct (update_ok_inv _ _ _ _ _ _ _ Hget E) as (Hp' & Hst1 & Hnn).
  destruct (apply_updates_fields u p) as (F1 & F2 & F3 & F4 & F5).
  destruct (missing_false _ _ Msn) as (s & Es & _ & T1).
  destruct (missing_false _ _ Mo) as (w & Ew & _ & T2).
  subst sn o. simpl in T1, T2, N.
  assert (G1 : schema_name p' = Some (strip s)).
  { rewrite Hp'. etransitivity; [exact F1|]. now rewrite N. }
  assert (G2 : description p' = stripped_or_none strip d).
  { rewrite Hp'. etransitivity; [exact F2|]. now rewrite N. }
  assert (G3 : owner p' = Some (strip w)).
  { rewrite Hp'. etransitivity; [exact F3|]. now rewrite N. }
  assert (G4 : creation_date p' = cd0).
  { rewrite Hp'. etransitivity; [exact F4|]. now rewrite N. }
  assert (G5 : id p' = id p).
  { rewrite Hp'. exact (apply_updates_id u p). }
  unfold not_null in Hnn. rewrite G1, G3, G4 in Hnn.
  destruct cd0 as [cd|]; [|discriminate].
  exists s, w, cd, p'. do 3 (split; [reflexivity|]). split.
  { unfold get_data_product_by_id.
    rewrite (session_get_rows _ _ _ (refresh_table_rows utcnow st1)).
    rewrite Hst1. unfold session_get. simpl.
    eapply find_replaced_same; [|exact Hget].
    rewrite G5. now apply session_get_Some in Hget. }
  do 5 (split; [assumption|]).
  split; [rewrite Hp'; exact F5|]. auto.
Qed.

(** * The further properties at work on concrete stores *)

Lemma monotone_tick_clock : monotone tick_clock.
Proof. intros a b H. unfold tick_clock. lia. Defined.

Lemma wf_one_row_db : wf one_row_db.
Proof. exact (reachable_wf _ _ reachable_one_row_db). Defined.

Lemma count_after_calls_witness :
  wf one_row_db
  /\ get_data_products_count
       (snd (create_data_product tick_clock sales_request one_row_db)) = 1%nat
  /\ get_data_products_count
       (snd (create_data_product tick_clock
               (mkCreate "marketing_metrics" None "bob@company.com" None)
               one_row_db)) = 2%nat
  /\ get_data_products_count (snd (delete_data_product (Some 1) one_row_db))
     = 0%nat.
Proof.
  split; [exact wf_one_row_db|].
  destruct (count_after_calls tick_clock one_row_db wf_one_row_db)
    as (Hc & _ & Hd).
  split; [exact (Hc sales_request)|].
  split; [exact (Hc (mkCreate "marketing_metrics" None "bob@company.com" None))|].
  pose proof (Hd (Some 1)) as H. simpl in H. now inversion H.
Defined.

Lemma create_data_product_outcomes_witness :
  taken "sales_analytics" one_row_db
  /\ create_data_product tick_clock sales_request one_row_db
     = (ValueError "sales_analytics", one_row_db).
Proof.
  assert (T : taken "sales_analytics" one_row_db).
  { eexists. split; [left; reflexivity|reflexivity]. }
  split; [exact T|].
  apply (create_data_product_outcomes tick_clock sales_request one_row_db).
  split; [exact T|discriminate].
Defined.

Lemma update_data_product_succeeds_iff_witness :
  let u := mkUpdate (Provided (Some "sales_v2"%string)) Unset Unset Unset in
  wf one_row_db
  /\ (exists p, session_get one_row_db 1 = Some p)
  /\ exists p' st',
       update_data_product tick_clock (Some 1) u one_row_db
       = (Ok (Some p'), st').
Proof.
  intros u. split; [exact wf_one_row_db|].
  split; [eexists; reflexivity|].
  apply (update_data_product_succeeds_iff tick_clock one_row_db 1 u _
           wf_one_row_db eq_refl).
  split; [repeat split; discriminate|].
  intros n Hn (q & [<-|[]] & Hq & _). now apply Hq.
Defined.

Lemma lookups_are_exact_witness :
  wf one_row_db
  /\ exists r,
       In r (rows one_row_db) /\ schema_name r = Some "sales_analytics"%string
       /\ get_data_product_by_schema_name "sales_analytics" one_row_db = Some r
       /\ get_data_product_by_id (Some 1) one_row_db = Some r.
Proof.
  split; [exact wf_one_row_db|].
  destruct (lookups_are_exact one_row_db wf_one_row_db) as (Hid & Hname).
  eexists. split; [left; reflexivity|]. split; [reflexivity|]. split.
  - apply Hname. split; [discriminate|]. split; [left|]; reflexivity.
  - apply Hid. split; [left|]; reflexivity.
Defined.

Lemma create_then_find_by_schema_name_witness :
  exists p st',
    create_data_product tick_clock sales_request empty_db = (Ok p, st')
    /\ get_data_product_by_schema_name "sales_analytics" st' = Some p.
Proof.
  eexists. eexists. split; [reflexivity|].
  apply (create_then_find_by_schema_name tick_clock sales_request empty_db
           _ _ eq_refl).
  discriminate.
Defined.

(** Two further calls on the one-row store: an update of the record and
    the creation of another. *)
Lemma created_at_never_changes_witness :
  let cs := [ Update (Some 1)
                (mkUpdate Unset (Provided (Some "updated"%string)) Unset Unset);
              Create (mkCreate "marketing_metrics" None "bob@company.com" None) ] in
  (exists p, session_get one_row_db 1 = Some p /\ created_at p = 1)
  /\ ~ In (Delete (Some 1)) cs
  /\ exists p',
       get_data_product_by_id (Some 1) (run tick_clock cs one_row_db) = Some p'
       /\ created_at p' = 1.
Proof.
  intros cs.
  assert (Hcs : ~ In (Delete (Some 1)) cs).
  { intros [H|[H|[]]]; discriminate. }
  split; [eexists; split; reflexivity|]. split; [exact Hcs|].
  destruct (created_at_never_changes tick_clock cs one_row_db 1 _ eq_refl Hcs)
    as (p' & Hp' & _ & Hca).
  exists p'. split; [exact Hp'|exact Hca].
Defined.

Lemma updated_at_never_decreases_witness :
  let cs := [ Update (Some 1)
                (mkUpdate Unset (Provided (Some "updated"%string)) Unset Unset);
              Create (mkCreate "marketing_metrics" None "bob@company.com" None) ] in
  monotone tick_clock
  /\ reachable tick_clock one_row_db
  /\ (exists p, session_get one_row_db 1 = Some p /\ updated_at p = 2)
  /\ ~ In (Delete (Some 1)) cs
  /\ exists p',
       get_data_product_by_id (Some 1) (run tick_clock cs one_row_db) = Some p'
       /\ 2 <= updated_at p'.
Proof.
  intros cs.
  assert (Hcs : ~ In (Delete (Some 1)) cs).
  { intros [H|[H|[]]]; discriminate. }
  split; [exact monotone_tick_clock|]. split; [exact reachable_one_row_db|].
  split; [eexists; split; reflexivity|]. split; [exact Hcs|].
  exact (updated_at_never_decreases tick_clock cs one_row_db 1 _
           monotone_tick_clock reachable_one_row_db eq_refl Hcs).
Defined.

Lemma rename_moves_the_name_witness :
  let u := mkUpdate (Provided (Some "sales_v2"%string)) Unset Unset Unset in
  wf one_row_db
  /\ exists p p' st',
       session_get one_row_db 1 = Some p
       /\ update_data_product tick_clock (Some 1) u one_row_db
          = (Ok (Some p'), st')
       /\ get_data_product_by_schema_name "sales_v2" st' = Some p'
       /\ get_data_product_by_schema_name "sales_analytics" st' = None.
Proof.
  intros u. split; [exact wf_one_row_db|].
  eexists. eexists. eexists. split; [reflexivity|]. split; [reflexivity|].
  destruct (rename_moves_the_name tick_clock one_row_db _ 1 u _ _ "sales_v2"
              wf_one_row_db eq_refl eq_refl eq_refl) as (Hnew & Hold).
  { discriminate. }
  split; [exact Hnew|]. apply Hold; [reflexivity|discriminate].
Defined.

Lemma delete_frees_schema_name_witness :
  wf one_row_db
  /\ (exists p, session_get one_row_db 1 = Some p
                /\ schema_name p = Some (c_schema_name sales_request))
  /\ exists r st',
       create_data_product tick_clock sales_request
         (snd (delete_data_product (Some 1) one_row_db)) = (Ok r, st').
Proof.
  split; [exact wf_one_row_db|].
  split; [eexists; split; reflexivity|].
  apply (delete_frees_schema_name tick_clock one_row_db 1 _ sales_request
           wf_one_row_db eq_refl eq_refl).
Defined.

Lemma reachable_rows_complete_witness :
  reachable tick_clock search_db
  /\ NoDup (map id (rows search_db))
  /\ forall p, In p (rows search_db) ->
       get_data_product_by_id (id p) search_db = Some p.
Proof.
  split; [exact reachable_search_db|].
  destruct (reachable_rows_complete tick_clock search_db reachable_search_db)
    as (Hnd & Hrows).
  split; [exact Hnd|]. intros p Hp. now apply Hrows.
Defined.

Lemma seed_sample_data_on_empty_witness :
  rows empty_db = []
  /\ get_data_products_count (seed_sample_data tick_clock empty_db) = 6%nat
  /\ map creation_date (rows (seed_sample_data tick_clock empty_db))
     = [ Some (0 - days 30); Some (1 - days 25); Some (2 - days 20);
         Some (3 - days 15); Some (4 - days 10); Some (5 - days 5) ].
Proof.
  split; [reflexivity|].
  destruct (seed_sample_data_on_empty tick_clock empty_db eq_refl)
    as (_ & Hd & Hc).
  split; [exact Hc|exact Hd].
Defined.

Lemma seed_sample_data_idempotent_witness :
  rows one_row_db <> []
  /\ seed_sample_data tick_clock one_row_db = one_row_db
  /\ seed_sample_data tick_clock (seed_sample_data tick_clock empty_db)
     = seed_sample_data tick_clock empty_db.
Proof.
  assert (H : rows one_row_db <> []) by discriminate.
  split; [exact H|].
  split; [now apply (seed_sample_data_idempotent tick_clock one_row_db)|].
  apply (seed_sample_data_idempotent tick_clock empty_db).
Defined.

Lemma seed_sample_data_listing_witness :
  monotone tick_clock
  /\ rows empty_db = []
  /\ map schema_name
       (get_all_data_products (seed_sample_data tick_clock empty_db))
     = [ Some "operational_metrics"; Some "financial_reporting";
         Some "product_usage"; Some "marketing_campaigns";
         Some "sales_performance"; Some "customer_analytics" ]%string.
Proof.
  split; [exact monotone_tick_clock|]. split; [reflexivity|].
  exact (seed_sample_data_listing tick_clock empty_db monotone_tick_clock
           eq_refl).
Defined.

Lemma refresh_table_counters_witness :
  rows search_db <> []
  /\ total (fst (refresh_table tick_clock search_db)) = 3%nat
  /\ (1 <= unique_owners (fst (refresh_table tick_clock search_db)))%nat
  /\ rows (snd (refresh_table tick_clock search_db)) = rows search_db.
Proof.
  assert (H : rows search_db <> []) by discriminate.
  destruct (refresh_table_counters tick_clock search_db)
    as (Ht & _ & _ & Hu & Hr & _).
  split; [exact H|]. split; [exact Ht|]. split; [exact (Hu H)|exact Hr].
Defined.

Lemma dialogs_require_schema_name_and_owner_witness :
  blank_input strip_ascii (Some "   "%string)
  /\ save_new_data_product tick_clock parse_one_date strip_ascii
       (Some "   "%string) None (Some "bob@company.com"%string) No_value
       one_row_db
     = (Schema_name_required, one_row_db).
Proof.
  assert (B : blank_input strip_ascii (Some "   "%string)).
  { right. eexists. split; [reflexivity|]. right. reflexivity. }
  split; [exact B|].
  destruct (dialogs_require_schema_name_and_owner tick_clock parse_one_date
              strip_ascii 1
              (Some "   "%string) None (Some "bob@company.com"%string)
              No_value one_row_db) as (H1 & _ & _ & _ & H5).
  apply injective_projections.
  - now apply H1.
  - apply H5. now left.
Defined.

Lemma dialogs_change_rows_only_on_success_witness :
  reports_success
    (fst (save_new_data_product tick_clock parse_one_date strip_ascii
            (Some "sales_analytics"%string) None
            (Some "bob@company.com"%string) No_value one_row_db)) = false
  /\ rows (snd (save_new_data_product tick_clock parse_one_date strip_ascii
                  (Some "sales_analytics"%string) None
                  (Some "bob@company.com"%string) No_value one_row_db))
     = rows one_row_db.
Proof.
  split; [reflexivity|].
  now apply (dialogs_change_rows_only_on_success tick_clock parse_one_date
               strip_ascii 1).
Defined.

Lemma save_new_data_product_stores_stripped_witness :
  exists st' p,
    save_new_data_product tick_clock parse_one_date strip_ascii
      (Some "  marketing_metrics "%string) (Some EmptyString)
      (Some " bob@company.com"%string) (Iso "2024-01-15") one_row_db
    = (Created (Some "  marketing_metrics "%string), st')
    /\ rows st' = rows one_row_db ++ [p]
    /\ schema_name p = Some "marketing_metrics"%string
    /\ owner p = Some "bob@company.com"%string
    /\ description p = None.
Proof.
  eexists.
  destruct (save_new_data_product_stores_stripped tick_clock parse_one_date
              strip_ascii
              (Some "  marketing_metrics "%string) (Some EmptyString)
              (Some " bob@company.com"%string) _ (Iso "2024-01-15")
              one_row_db _ eq_refl)
    as (_ & s & w & p & Es & Ew & Hr & Hn & Ho & Hd & _).
  inversion Es; subst s. inversion Ew; subst w.
  exists p. split; [reflexivity|]. auto.
Defined.

Lemma save_new_data_product_duplicate_witness :
  taken "sales_analytics" one_row_db
  /\ save_new_data_product tick_clock parse_one_date strip_ascii
       (Some " sales_analytics  "%string) None
       (Some "bob@company.com"%string) No_value one_row_db
     = (Rejected (Name_exists "sales_analytics"), one_row_db).
Proof.
  assert (T : taken "sales_analytics" one_row_db).
  { eexists. split; [left; reflexivity|reflexivity]. }
  split; [exact T|].
  exact (save_new_data_product_duplicate tick_clock parse_one_date strip_ascii
           (Some " sales_analytics  "%string) None
           (Some "bob@company.com"%string) No_value one_row_db None _
           eq_refl eq_refl eq_refl eq_refl T).
Defined.

Lemma save_data_product_changes_without_date_witness :
  fst (save_data_product_changes tick_clock parse_one_date strip_ascii 1
         (Some "sales_analytics"%string) (Some "Sales data analysis"%string)
         (Some "john.doe@company.com"%string) No_value one_row_db) = Failed
  /\ rows (snd (save_data_product_changes tick_clock parse_one_date
                  strip_ascii 1
                  (Some "sales_analytics"%string)
                  (Some "Sales data analysis"%string)
                  (Some "john.doe@company.com"%string) No_value one_row_db))
     = rows one_row_db.
Proof.
  split; [reflexivity|].
  apply (save_data_product_changes_without_date tick_clock parse_one_date
           strip_ascii 1).
  now left.
Defined.

Lemma save_data_product_changes_stores_inputs_witness :
  exists p st' p',
    session_get one_row_db 1 = Some p
    /\ save_data_product_changes tick_clock parse_one_date strip_ascii 1
         (Some " sales_v2 "%string) (Some EmptyString)
         (Some "ann@company.com"%string) (Iso "2024-01-15") one_row_db
       = (Updated (Some " sales_v2 "%string), st')
    /\ get_data_product_by_id (Some 1) st' = Some p'
    /\ schema_name p' = Some "sales_v2"%string
    /\ description p' = None
    /\ created_at p' = created_at p.
Proof.
  eexists. eexists.
  destruct (save_data_product_changes_stores_inputs tick_clock parse_one_date
              strip_ascii
              1 (Some " sales_v2 "%string) (Some EmptyString)
              (Some "ann@company.com"%string) _ (Iso "2024-01-15")
              one_row_db _ _ eq_refl eq_refl)
    as (s & w & cd & p' & Es & _ & _ & Hg & Hn & Hd & _ & _ & _ & Hc & _).
  inversion Es; subst s.
  exists p'. split; [reflexivity|]. split; [reflexivity|]. auto.
Defined.
